(** * inner-tracker: the per-week state of the tracker page and what is derived from it

    The page component [App] keeps one week of data in React state, mirrors it
    into [localStorage] under a key made from the week-start date, derives
    three percentages from it, and exports / imports it as JSON.

    The development follows the source file of the tracker page:
    - [JS]         the JSON values the state is serialised to, and truthiness;
    - [Week]       the typed state ([Habit], [Section], the object built by
                   [newWeekState]) and the updaters passed to [setWeek];
    - [Derived]    [habitScore], [innerTicks], [outerTicks], [innerPct],
                   [innerProgress];
    - [Dates]      the calendar arithmetic behind [formatISO] and [shiftWeek];
    - [Store]      [useLocalState], [shiftWeek], [exportJSON], [importJSON].

    Numbers.  A JavaScript number is a binary64 float, and the numbers the
    week holds (the minutes typed by the user, the two estimates) are the
    kernel's binary64 floats, with their own addition, multiplication and
    division; [Math.round] and [Math.min] on them follow the language
    standard.  Counts of ticks and of habits are small integers and are
    modelled as [nat]; the percentage computed from two counts is their exact
    quotient, rounded to the nearest integer with ties going up, and is only
    ever specified up to which nearest integer is taken. *)

From Stdlib Require Import Floats Uint63.
From Stdlib Require Import ZArith QArith Qround Qminmax Qabs Qcanon String Ascii Lia Lqa.
From stdpp Require Import base option list gmap strings.

Set Warnings "-register-all".
#[local] Open Scope string_scope.

(** ** JSON values *)

Module JS.

(** A JavaScript number: a binary64 float. *)
Definition number : Type := float.

(** What [JSON.parse] can return.  Objects are finite maps from property
    names to values. *)
Inductive value : Type :=
  | Null
  | Bool (b : bool)
  | Num (n : number)
  | Str (s : string)
  | Arr (items : list value)
  | Obj (props : gmap string value).

(** [n === 0], true of both zeros, and [Number.isNaN(n)]. *)
Definition is_zero (n : number) : bool := PrimFloat.eqb n 0%float.

Definition isNaN (n : number) : bool := PrimFloat.is_nan n.

(** [!!v]: only [null], [false], the zeros, [NaN] and the empty string are
    falsy. *)
Definition truthy (v : value) : bool :=
  match v with
  | Null => false
  | Bool b => b
  | Num n => negb (is_zero n || isNaN n)
  | Str s => negb (String.eqb s "")
  | Arr _ => true
  | Obj _ => true
  end.

(** [v?.k] for a property name [k] that no prototype defines: the own
    property of an object, [undefined] (here [None]) for everything else. *)
Definition get (k : string) (v : value) : option value :=
  match v with
  | Obj props => props !! k
  | _ => None
  end.

(** Truthiness of [v?.k], where [undefined] is falsy. *)
Definition has (k : string) (v : value) : bool :=
  match get k v with
  | Some x => truthy x
  | None => false
  end.

(** The numbers JSON has a text for: the finite ones, the negative zero
    apart. *)
Definition json_number (n : number) : bool :=
  negb (PrimFloat.Leibniz.eqb n (-0)%float) && PrimFloat.is_finite n.

(** What [JSON.parse] reads from what [JSON.stringify] writes of a value:
    the value itself, but for the numbers JSON has no text for.  The negative
    zero is written as [0], [NaN] and the infinities as [null]. *)
Fixpoint written (v : value) : value :=
  match v with
  | Num n =>
      if PrimFloat.Leibniz.eqb n (-0)%float then Num 0%float
      else if PrimFloat.is_finite n then Num n
      else Null
  | Arr items => Arr (written <$> items)
  | Obj props => Obj (written <$> props)
  | _ => v
  end.

(** [Math.round]: the nearest integer, a tie going towards plus infinity. *)
Definition Math_round (x : Q) : Z := Qfloor (x + (1 # 2)).

(** The number that is the integer [z]; exact up to 2^53. *)
Definition number_of_Z (z : Z) : number :=
  if (z <? 0)%Z
  then PrimFloat.opp (PrimFloat.of_uint63 (Uint63.of_Z (- z)))
  else PrimFloat.of_uint63 (Uint63.of_Z z).

(** [Math.round] on a number: a number that is not finite or is integral is
    returned as it is; otherwise the integral number closest to it, a tie
    going towards plus infinity, and a zero result keeping the sign of the
    argument.  With mantissa [m] and exponent [e < 0] the argument is
    [m * 2^e], below 2^53 in size, and the result is computed exactly. *)
Definition Math_round64 (x : number) : number :=
  match Prim2SF x with
  | S754_finite s m e =>
      if (0 <=? e)%Z then x
      else
        let r := ((2 * cond_Zopp s (Zpos m) + 2 ^ (- e)) / 2 ^ (1 - e))%Z in
        if (r =? 0)%Z then (if s then (-0)%float else 0%float) else number_of_Z r
  | _ => x
  end.

(** [Math.min] of two numbers: [NaN] if one of them is, and the negative zero
    is below the positive one. *)
Definition Math_min64 (x y : number) : number :=
  if isNaN x || isNaN y then nan
  else if PrimFloat.ltb y x then y
  else if PrimFloat.ltb x y then x
  else if is_zero x && PrimFloat.get_sign y then y else x.

End JS.

Import JS.

(** ** The typed week state *)

Module Week.

Inductive HabitKind : Type := inner | outer.

#[export] Instance HabitKind_eq_dec : EqDecision HabitKind.
Proof. solve_decision. Defined.

Definition kind_eqb (a b : HabitKind) : bool := bool_decide (a = b).

(** [type Habit = { id; name; enabled; kind }] *)
Record Habit : Type := mkHabit {
  habit_id : string;
  habit_name : string;
  enabled : bool;
  kind : HabitKind
}.

Record ChecklistItem : Type := mkItem {
  item_id : string;
  item_text : string;
  item_done : bool
}.

(** [type Section = ChecklistSection | NotesSection | NumberSection] *)
Inductive Section : Type :=
  | checklist (sid title : string) (items : list ChecklistItem)
  | notes (sid title text : string)
  | numberSection (sid title : string) (val : number).

Record Meta : Type := mkMeta {
  weekStart : string;
  createdAt : string;
  theme : string;
  logoDataUrl : string
}.

Record Metrics : Type := mkMetrics {
  realMetricLabel : string;
  realMetricValue : string;
  screenTimeTarget : string;
  dailyInnerMinutes : list number;
  innerShareEstimate : number
}.

Record OneTime : Type := mkOneTime {
  whysTopic : string;
  rootCause : string;
  vanityFrom : string;
  realTo : string;
  seam : string;
  bridgeAction : string;
  bridgeWhen : string
}.

Record Reflection : Type := mkReflection {
  helped : string;
  overPolish : string;
  stop : string;
  cont : string;
  start : string;
  nextInnerShare : number;
  commitment : string
}.

(** The object returned by [newWeekState]. *)
Record WeekState : Type := mkWeek {
  meta : Meta;
  metrics : Metrics;
  habits : list Habit;
  ticks : gmap string (list bool);
  sections : list Section;
  oneTime : OneTime;
  wins : list string;
  reflection : Reflection
}.

Definition DEFAULT_HABITS : list Habit :=
  [ mkHabit "upstream" "2‑min upstream block (start of day)" true inner;
    mkHabit "sleep" "Sleep ≥ 7h" true inner;
    mkHabit "move" "Move 20+ min" true inner;
    mkHabit "noscroll" "No‑scroll bedtime" true inner;
    mkHabit "learn" "Learn (10 pages / 20 min)" true inner;
    mkHabit "fuel" "Fuel/Water (prep or ≥2L)" true inner;
    mkHabit "connect" "Connect (msg/call someone who matters)" true inner;
    mkHabit "screentime" "Screen time ≤ target (hrs)" true inner;
    mkHabit "publish" "Post something public" false outer ].

(** [Array(7).fill(x)] *)
Definition Array7 {A} (x : A) : list A := replicate 7 x.

(** [Object.fromEntries]: a later entry overrides an earlier one. *)
Definition Object_fromEntries {A} (entries : list (string * A)) : gmap string A :=
  foldl (fun m e => <[ e.1 := e.2 ]> m) ∅ entries.

(** [newWeekState(weekStartISO)]; [now] is [new Date().toISOString()]. *)
Definition newWeekState (weekStartISO now : string) : WeekState :=
  let habits := DEFAULT_HABITS in
  let ticks := Object_fromEntries (List.map (fun h => (habit_id h, Array7 false)) habits) in
  {| meta := mkMeta weekStartISO now "" "";
     metrics := mkMetrics "Sleep hours" "" "2.5" (Array7 2%float) 60%float;
     habits := habits;
     ticks := ticks;
     sections := [];
     oneTime := mkOneTime "" "" "" "" "" "" "";
     wins := [""; ""; ""; ""; ""];
     reflection := mkReflection "" "" "" "" "" 60%float "" |}.

(** [{ ...prev, habits: hs, ticks: t }] *)
Definition with_habits_ticks (prev : WeekState) (hs : list Habit)
    (t : gmap string (list bool)) : WeekState :=
  {| meta := meta prev; metrics := metrics prev; habits := hs; ticks := t;
     sections := sections prev; oneTime := oneTime prev; wins := wins prev;
     reflection := reflection prev |}.

Definition with_habits (prev : WeekState) (hs : list Habit) : WeekState :=
  with_habits_ticks prev hs (ticks prev).

Definition with_ticks (prev : WeekState) (t : gmap string (list bool)) : WeekState :=
  with_habits_ticks prev (habits prev) t.

(** *** The identifier of a new habit

    [name.toLowerCase().replace(/\s+/g, "-").replace(/[^a-z0-9-]/g, "")
         .slice(0, 24) + "-" + (Math.random()+"").slice(2,6)]
    on names made of ASCII characters.  The last part, the digits cut out of
    the random number, is the argument [rnd]. *)

Definition is_space (c : ascii) : bool :=
  let n := nat_of_ascii c in
  Nat.eqb n 32 || (Nat.leb 9 n && Nat.leb n 13).

Definition toLowerCase (c : ascii) : ascii :=
  let n := nat_of_ascii c in
  if Nat.leb 65 n && Nat.leb n 90 then ascii_of_nat (n + 32) else c.

Definition is_slug_char (c : ascii) : bool :=
  let n := nat_of_ascii c in
  (Nat.leb 97 n && Nat.leb n 122) || (Nat.leb 48 n && Nat.leb n 57) || Nat.eqb n 45.

(** [replace(/\s+/g, "-")]: [in_run] says that the previous character was
    white space, whose dash is already written. *)
Fixpoint dash_spaces (in_run : bool) (cs : list ascii) : list ascii :=
  match cs with
  | [] => []
  | c :: rest =>
      if is_space c
      then (if in_run then dash_spaces true rest else "-"%char :: dash_spaces true rest)
      else c :: dash_spaces false rest
  end.

Definition slug (name : string) : string :=
  string_of_list_ascii
    (take 24 (List.filter is_slug_char
                (dash_spaces false (List.map toLowerCase (list_ascii_of_string name))))).

Definition newHabitId (name rnd : string) : string :=
  slug name +:+ "-" +:+ rnd.

(** *** The updaters passed to [setWeek] *)

(** [addHabit]: [answer] is what [prompt] returned ([None] for [null]). *)
Definition addHabit (answer : option string) (rnd : string) (prev : WeekState) : WeekState :=
  match answer with
  | None => prev
  | Some name =>
      if String.eqb name "" then prev
      else
        let id := newHabitId name rnd in
        let h := mkHabit id name true inner in
        with_habits_ticks prev (habits prev ++ [h]) (<[ id := Array7 false ]> (ticks prev))
  end.

(** [removeHabit]: [confirmed] is what [confirm] returned. *)
Definition removeHabit (confirmed : bool) (id : string) (prev : WeekState) : WeekState :=
  if confirmed
  then with_habits_ticks prev
         (List.filter (fun h => negb (String.eqb (habit_id h) id)) (habits prev))
         (delete id (ticks prev))
  else prev.

(** [setTick]: [prev.ticks[habitId].map(...)] throws when the habit has no
    array ([None]). *)
Definition setTick (habitId : string) (dayIndex : nat) (val : bool)
    (prev : WeekState) : option WeekState :=
  arr ← ticks prev !! habitId;
  Some (with_ticks prev
          (<[ habitId := imap (fun i b => if Nat.eqb i dayIndex then val else b) arr ]>
             (ticks prev))).

Definition updateHabit (id : string) (f : Habit -> Habit) (prev : WeekState) : WeekState :=
  with_habits prev
    (List.map (fun h => if String.eqb (habit_id h) id then f h else h) (habits prev)).

Definition setHabitName (id name : string) : WeekState -> WeekState :=
  updateHabit id (fun h => mkHabit (habit_id h) name (enabled h) (kind h)).

Definition setHabitEnabled (id : string) (on : bool) : WeekState -> WeekState :=
  updateHabit id (fun h => mkHabit (habit_id h) (habit_name h) on (kind h)).

Definition setHabitKind (id : string) (k : HabitKind) : WeekState -> WeekState :=
  updateHabit id (fun h => mkHabit (habit_id h) (habit_name h) (enabled h) k).

(** [{ ...p, meta: { ...p.meta, weekStart: weekStartISO } }] *)
Definition with_weekStart (p : WeekState) (weekStartISO : string) : WeekState :=
  {| meta := mkMeta weekStartISO (createdAt (meta p)) (theme (meta p)) (logoDataUrl (meta p));
     metrics := metrics p; habits := habits p; ticks := ticks p;
     sections := sections p; oneTime := oneTime p; wins := wins p;
     reflection := reflection p |}.

(** *** The invariant of the data model *)

Definition has_week_array (t : gmap string (list bool)) (h : Habit) : bool :=
  match t !! habit_id h with
  | Some arr => Nat.eqb (length arr) 7
  | None => false
  end.

(** Every enabled habit has a seven-entry array in the tick mapping. *)
Definition ticks_ok (week : WeekState) : bool :=
  forallb (fun h => implb (enabled h) (has_week_array (ticks week) h)) (habits week).

(** Every habit, enabled or not, has one. *)
Definition all_ticks_ok (week : WeekState) : bool :=
  forallb (has_week_array (ticks week)) (habits week).

(** *** The state as the object that is stored and exported *)

Definition obj (props : list (string * value)) : value :=
  Obj (list_to_map props).

Definition kind_value (k : HabitKind) : value :=
  Str (match k with inner => "inner" | outer => "outer" end).

Definition habit_value (h : Habit) : value :=
  obj [("id", Str (habit_id h)); ("name", Str (habit_name h));
       ("enabled", Bool (enabled h)); ("kind", kind_value (kind h))].

Definition item_value (i : ChecklistItem) : value :=
  obj [("id", Str (item_id i)); ("text", Str (item_text i)); ("done", Bool (item_done i))].

Definition section_value (s : Section) : value :=
  match s with
  | checklist sid title items =>
      obj [("id", Str sid); ("type", Str "checklist"); ("title", Str title);
           ("items", Arr (item_value <$> items))]
  | notes sid title text =>
      obj [("id", Str sid); ("type", Str "notes"); ("title", Str title); ("text", Str text)]
  | numberSection sid title val =>
      obj [("id", Str sid); ("type", Str "number"); ("title", Str title); ("value", Num val)]
  end.

Definition meta_value (m : Meta) : value :=
  obj [("weekStart", Str (weekStart m)); ("createdAt", Str (createdAt m));
       ("theme", Str (theme m)); ("logoDataUrl", Str (logoDataUrl m))].

Definition metrics_value (m : Metrics) : value :=
  obj [("realMetricLabel", Str (realMetricLabel m));
       ("realMetricValue", Str (realMetricValue m));
       ("screenTimeTarget", Str (screenTimeTarget m));
       ("dailyInnerMinutes", Arr (Num <$> dailyInnerMinutes m));
       ("innerShareEstimate", Num (innerShareEstimate m))].

Definition oneTime_value (o : OneTime) : value :=
  obj [("whysTopic", Str (whysTopic o)); ("rootCause", Str (rootCause o));
       ("vanityFrom", Str (vanityFrom o)); ("realTo", Str (realTo o));
       ("seam", Str (seam o)); ("bridgeAction", Str (bridgeAction o));
       ("bridgeWhen", Str (bridgeWhen o))].

Definition reflection_value (r : Reflection) : value :=
  obj [("helped", Str (helped r)); ("overPolish", Str (overPolish r));
       ("stop", Str (stop r)); ("cont", Str (cont r)); ("start", Str (start r));
       ("nextInnerShare", Num (nextInnerShare r)); ("commitment", Str (commitment r))].

Definition ticks_value (t : gmap string (list bool)) : value :=
  Obj ((fun arr => Arr (Bool <$> arr)) <$> t).

Definition week_value (w : WeekState) : value :=
  obj [("meta", meta_value (meta w)); ("metrics", metrics_value (metrics w));
       ("habits", Arr (habit_value <$> habits w));
       ("ticks", ticks_value (ticks w));
       ("sections", Arr (section_value <$> sections w));
       ("oneTime", oneTime_value (oneTime w));
       ("wins", Arr (Str <$> wins w));
       ("reflection", reflection_value (reflection w))].

(** The numbers of the week are numbers of JSON. *)
Definition section_json_number (s : Section) : bool :=
  match s with
  | numberSection _ _ val => json_number val
  | _ => true
  end.

Definition json_numbers (w : WeekState) : bool :=
  forallb json_number (dailyInnerMinutes (metrics w))
  && json_number (innerShareEstimate (metrics w))
  && json_number (nextInnerShare (reflection w))
  && forallb section_json_number (sections w).

End Week.

Import Week.

(** ** Derived metrics *)

Module Derived.

(** [arr.filter(Boolean).length] *)
Definition tickCount (arr : list bool) : nat :=
  length (List.filter (fun b => b) arr).

(** [hs.reduce((sum, h) => sum + week.ticks[h.id].filter(Boolean).length, 0)].
    Reading a property of [undefined] throws a [TypeError]: [None]. *)
Definition tickSum (week : WeekState) (hs : list Habit) : option nat :=
  foldl (fun acc h =>
           sum ← acc;
           arr ← ticks week !! habit_id h;
           Some (sum + tickCount arr)%nat)
        (Some 0%nat) hs.

Definition enabledHabits (week : WeekState) : list Habit :=
  List.filter enabled (habits week).

Definition ticksCount (week : WeekState) : option nat :=
  tickSum week (enabledHabits week).

Definition totalCells (week : WeekState) : nat :=
  (length (enabledHabits week) * 7)%nat.

(** [Math.round((a / b) * 100)] guarded by [b ? ... : 0]. *)
Definition percentOf (a b : nat) : Z :=
  match b with
  | O => 0%Z
  | _ => Math_round ((inject_Z (Z.of_nat a) / inject_Z (Z.of_nat b)) * 100)
  end.

Definition habitScore (week : WeekState) : option Z :=
  t ← ticksCount week;
  Some (percentOf t (totalCells week)).

Definition ofKind (k : HabitKind) (hs : list Habit) : list Habit :=
  List.filter (fun h => kind_eqb (kind h) k) hs.

Definition innerTicks (week : WeekState) : option nat :=
  tickSum week (ofKind inner (enabledHabits week)).

Definition outerTicks (week : WeekState) : option nat :=
  tickSum week (ofKind outer (enabledHabits week)).

Definition innerPct (week : WeekState) : option Z :=
  i ← innerTicks week;
  o ← outerTicks week;
  let totalTaggedTicks := (i + o)%nat in
  Some (percentOf i totalTaggedTicks).

(** [Number(b || 0)] on a number: a zero and [NaN] are falsy. *)
Definition Number_or0 (b : number) : number :=
  if is_zero b || isNaN b then 0%float else b.

(** [dailyInnerMinutes.reduce((a, b) => a + Number(b || 0), 0)] *)
Definition totalInnerMinutes (week : WeekState) : number :=
  foldl (fun a b => (a + Number_or0 b)%float) 0%float (dailyInnerMinutes (metrics week)).

Definition targetInnerMinutes : number := (2 * 7)%float.

Definition innerProgress (week : WeekState) : number :=
  Math_min64 100%float
    (Math_round64 ((totalInnerMinutes week / targetInnerMinutes) * 100)%float).

End Derived.

Import Derived.

(** ** Calendar dates

    [new Date("YYYY-MM-DD")] is midnight UTC of that day, and
    [toISOString().slice(0, 10)] is the UTC date again.  In between,
    [start.setDate(start.getDate() + n)] works on the local date; on a host
    whose offset from UTC is the same before and after the move it adds
    exactly [n] days, and that is the host described here.  A date is its day
    number, counted from 1970-01-01. *)

Module Dates.

#[local] Open Scope Z_scope.

(** The day number of year [y], month [m] (1 to 12), day [d]: [MakeDay]. *)
Definition days_from_civil (y m d : Z) : Z :=
  let y' := if m <=? 2 then y - 1 else y in
  let era := y' / 400 in
  let yoe := y' - era * 400 in
  let mp := if 2 <? m then m - 3 else m + 9 in
  let doy := (153 * mp + 2) / 5 + d - 1 in
  let doe := yoe * 365 + yoe / 4 - yoe / 100 + doy in
  era * 146097 + doe - 719468.

(** [YearFromTime], [MonthFromTime] and [DateFromTime] of a day number. *)
Definition civil_from_days (z : Z) : Z * Z * Z :=
  let z' := z + 719468 in
  let era := z' / 146097 in
  let doe := z' - era * 146097 in
  let yoe := (doe - doe / 1460 + doe / 36524 - doe / 146096) / 365 in
  let doy := doe - (365 * yoe + yoe / 4 - yoe / 100) in
  let mp := (5 * doy + 2) / 153 in
  let d := doy - (153 * mp + 2) / 5 + 1 in
  let m := if mp <? 10 then mp + 3 else mp - 9 in
  let y := yoe + era * 400 in
  (if m <=? 2 then y + 1 else y, m, d).

Definition is_leap (y : Z) : bool :=
  (y mod 4 =? 0) && (negb (y mod 100 =? 0) || (y mod 400 =? 0)).

Definition days_in_month (y m : Z) : Z :=
  if m =? 2 then (if is_leap y then 29 else 28)
  else if (m =? 4) || (m =? 6) || (m =? 9) || (m =? 11) then 30
  else 31.

Definition digit_of (c : ascii) : option Z :=
  let n := Z.of_nat (nat_of_ascii c) in
  if (48 <=? n) && (n <=? 57) then Some (n - 48) else None.

Definition number_of (cs : list ascii) : option Z :=
  foldl (fun acc c => n ← acc; d ← digit_of c; Some (10 * n + d)) (Some 0) cs.

(** [new Date(s)] for a string of the form [YYYY-MM-DD], as a day number.
    [None] is an invalid date.  Strings of another form, and days past the
    end of their month, which some engines accept, are not read either. *)
Definition Date_parse (s : string) : option Z :=
  match list_ascii_of_string s with
  | [y1; y2; y3; y4; "-"%char; m1; m2; "-"%char; d1; d2] =>
      y ← number_of [y1; y2; y3; y4];
      m ← number_of [m1; m2];
      d ← number_of [d1; d2];
      if (1 <=? m) && (m <=? 12) && (1 <=? d) && (d <=? days_in_month y m)
      then Some (days_from_civil y m d)
      else None
  | _ => None
  end.

Definition digit_char (n : Z) : ascii :=
  ascii_of_nat (Z.to_nat (48 + n mod 10)).

(** [n] written with [width] decimal digits, zero-padded. *)
Fixpoint padded (width : nat) (n : Z) : string :=
  match width with
  | O => ""
  | S w => padded w (n / 10) +:+ String (digit_char n) ""
  end.

(** [formatISO]: the first ten characters of [toISOString()].  Years outside
    0..9999 are written with a sign and six digits. *)
Definition formatISO (day : Z) : string :=
  let '(y, m, d) := civil_from_days day in
  if (0 <=? y) && (y <=? 9999)
  then padded 4 y +:+ "-" +:+ padded 2 m +:+ "-" +:+ padded 2 d
  else (if y <? 0 then "-" else "+") +:+ padded 6 (Z.abs y) +:+ "-" +:+ padded 2 m.

End Dates.

Import Dates.

(** ** The store: local storage, week switching, export and import *)

Module Store.

(** [JSON.stringify] and [JSON.parse] over some type of texts.  Parsing
    what was written gives the value back, with [null] or [0] for the numbers
    JSON has no text for; the empty string, the only falsy text, is not
    JSON. *)
Class JSON (text : Type) : Type := {
  JSON_stringify : value -> text;
  JSON_stringify_pretty : value -> text;
  JSON_parse : text -> option value;
  nonempty : text -> bool;
  parse_stringify : forall v, JSON_parse (JSON_stringify v) = Some (written v);
  parse_stringify_pretty :
    forall v, JSON_parse (JSON_stringify_pretty v) = Some (written v);
  parse_empty : forall t, nonempty t = false -> JSON_parse t = None
}.

(** Texts told apart only by what they parse to: the JSON text of a value,
    compact or indented, or a text that is not JSON. *)
Inductive document : Type :=
  | json_text (indented : bool) (v : value)
  | other_text (s : string).

Definition document_parse (d : document) : option value :=
  match d with
  | json_text _ v => Some v
  | other_text _ => None
  end.

Definition document_nonempty (d : document) : bool :=
  match d with
  | json_text _ _ => true
  | other_text s => negb (String.eqb s "")
  end.

#[export] Instance document_JSON : JSON document.
Proof.
  refine {| JSON_stringify := fun v => json_text false (written v);
            JSON_stringify_pretty := fun v => json_text true (written v);
            JSON_parse := document_parse;
            nonempty := document_nonempty |}.
  - reflexivity.
  - reflexivity.
  - intros [i v | s]; [discriminate | reflexivity].
Defined.

Section Hooks.

Context {text : Type} `{!JSON text}.

Definition STORAGE_PREFIX : string := "inner-tracker-v2.2:".

Definition storageKey (weekStartISO : string) : string :=
  STORAGE_PREFIX +:+ weekStartISO.

(** Truthiness of [localStorage.getItem(key)]. *)
Definition stored (ls : gmap string text) (key : string) : bool :=
  match ls !! key with
  | Some raw => nonempty raw
  | None => false
  end.

(** The initial state of [useLocalState(key, initial)]:
    [raw ? JSON.parse(raw) : initial], and [initial] when that throws.  (The
    source declares the state of the hook twice, with and without type
    annotations; both initialisers are this one.) *)
Definition useLocalState_init (ls : gmap string text) (key : string)
    (initial : value) : value :=
  match ls !! key with
  | Some raw =>
      if nonempty raw
      then match JSON_parse raw with
           | Some v => v
           | None => initial
           end
      else initial
  | None => initial
  end.

(** The week the page starts with:
    [useLocalState(storageKey, newWeekState(weekStartISO))]. *)
Definition loadOrCreate (ls : gmap string text) (weekStartISO now : string) : value :=
  useLocalState_init ls (storageKey weekStartISO)
    (week_value (newWeekState weekStartISO now)).

(** The page between two events: the two pieces of React state and the
    content of [localStorage]. *)
Record World : Type := mkWorld {
  weekStartISO : string;
  week : WeekState;
  localStorage : gmap string text
}.

(** The effect of [useLocalState("inner-week-start", ...)]. *)
Definition persist_pointer (w : World) : World :=
  mkWorld (weekStartISO w) (week w)
    (<[ "inner-week-start" := JSON_stringify (Str (weekStartISO w)) ]> (localStorage w)).

(** The effect of [useLocalState(storageKey, ...)]: it writes the state it
    holds under the key of the current render. *)
Definition persist_week (w : World) : World :=
  mkWorld (weekStartISO w) (week w)
    (<[ storageKey (weekStartISO w) := JSON_stringify (week_value (week w)) ]>
       (localStorage w)).

(** [setWeek(f)] followed by the render and its effect. *)
Definition setWeek (f : WeekState -> WeekState) (w : World) : World :=
  persist_week (mkWorld (weekStartISO w) (f (week w)) (localStorage w)).

(** The effect that depends on [weekStartISO]:
    [if (week?.meta?.weekStart !== weekStartISO) setWeek(p => ...)]. *)
Definition sync_weekStart (w : World) : World :=
  if String.eqb (weekStart (meta (week w))) (weekStartISO w)
  then w
  else setWeek (fun p => with_weekStart p (weekStartISO w)) w.

(** [shiftWeek(delta)].  The state hook keeps the state it has when its
    key changes (its initialiser runs on the first render only), so the
    week shown after the move is the one set here, if any, and otherwise
    the one shown before.  [None]: [toISOString] throws on an invalid
    date. *)
Definition shiftWeek (delta : Z) (now : string) (w : World) : option World :=
  start ← Date_parse (weekStartISO w);
  let nextISO := formatISO (start + delta * 7) in
  let existing := stored (localStorage w) (storageKey nextISO) in
  let next :=
    mkWorld nextISO
      (if existing then week w else newWeekState nextISO now)
      (localStorage w) in
  Some (if negb (String.eqb nextISO (weekStartISO w))
        then sync_weekStart (persist_week (persist_pointer next))
        else if existing then next else persist_week next).

(** [resetWeek(confirmText)]; [answer] is what [confirm] returns. *)
Definition resetWeek (confirmText answer : bool) (now : string) (w : World) : World :=
  if negb confirmText || answer
  then setWeek (fun _ => newWeekState (weekStartISO w) now) w
  else w.

(** [exportJSON]: the name and the content of the downloaded file. *)
Definition exportJSON (weekStartISO : string) (week : value) : string * text :=
  ("inner-" +:+ weekStartISO +:+ ".json", JSON_stringify_pretty week).

(** [importJSON], once the file is read: the state afterwards and the
    alert shown, if any. *)
Definition importJSON (contents : text) (current : value) : value * option string :=
  match JSON_parse contents with
  | Some data =>
      if has "meta" data && has "habits" data && has "ticks" data
      then (data, None)
      else (current, Some "Invalid file format")
  | None => (current, Some "Could not read file")
  end.

(** *** What the user can do to a week *)

(** The handlers that edit the week in place. *)
Inductive edit : WeekState -> WeekState -> Prop :=
  | edit_addHabit answer rnd W :
      edit W (addHabit answer rnd W)
  | edit_removeHabit confirmed id W :
      edit W (removeHabit confirmed id W)
  | edit_setTick habitId dayIndex val W W' :
      setTick habitId dayIndex val W = Some W' -> edit W W'
  | edit_setHabitName id name W :
      edit W (setHabitName id name W)
  | edit_setHabitEnabled id on W :
      edit W (setHabitEnabled id on W)
  | edit_setHabitKind id k W :
      edit W (setHabitKind id k W)
  | edit_new weekStartISO now W :
      edit W (newWeekState weekStartISO now)
  | edit_weekStart weekStartISO W :
      edit W (with_weekStart W weekStartISO)
  | edit_fields W W' :
      habits W' = habits W -> ticks W' = ticks W -> edit W W'.

(** The edits, and the import of a file that is accepted. *)
Inductive step : WeekState -> WeekState -> Prop :=
  | step_edit W W' : edit W W' -> step W W'
  | step_import contents W W' :
      importJSON contents (week_value W) = (week_value W', None) -> step W W'.

(** A week reached from a new one. *)
Definition reachable (R : WeekState -> WeekState -> Prop) (W : WeekState) : Prop :=
  exists weekStartISO now, rtc R (newWeekState weekStartISO now) W.

End Hooks.

End Store.

Import Store.

(** ** The vocabulary of the specification *)

Module Spec.

(** The number of ticks set for a habit: the [true] entries of its array in
    the tick mapping, none when it has no array. *)
Definition ticks_set (W : WeekState) (h : Habit) : nat :=
  count_occ bool_dec (default [] (ticks W !! habit_id h)) true.

(** The sum of the ticks set for the habits of a list. *)
Definition ticks_set_for (W : WeekState) (hs : list Habit) : nat :=
  sum_list (ticks_set W <$> hs).


(** The enabled habits, and those of them tagged [k]. *)
Definition enabled_habits (W : WeekState) : list Habit :=
  filter (fun h => enabled h = true) (habits W).


(** [s] is an integer nearest to [x]. *)
Definition nearest (s : Z) (x : Q) : Prop :=
  (Qabs (x - inject_Z s) <= 1 # 2)%Q.


(** The value of a number, as a fraction in lowest terms: the mantissa times
    a power of two.  The infinities and [NaN] have none. *)
Definition exact (x : number) : option Q :=
  match Prim2SF x with
  | S754_zero _ => Some 0%Q
  | S754_finite s m e => Some (Qred (inject_Z (cond_Zopp s (Zpos m)) * 2 ^ e))
  | _ => None
  end.

(** The sum of the entries of [dailyInnerMinutes], computed without
    rounding. *)
Definition totalWeeklyMinutes (W : WeekState) : option Q :=
  foldr (fun b acc => x ← exact b; a ← acc; Some (Qred (x + a)))
        (Some 0%Q) (dailyInnerMinutes (metrics W)).

(** The sum of whole numbers. *)
Definition total (ms : list Z) : Z := foldr Z.add 0%Z ms.

(** The minutes entered for week [W] are the whole numbers [ms], none
    negative, none above the 1440 minutes of a day, and together not above
    the 10080 minutes of a week. *)
Definition whole_minutes (W : WeekState) (ms : list Z) : Prop :=
  dailyInnerMinutes (metrics W) = number_of_Z <$> ms /\
  Forall (fun m => (0 <= m <= 1440)%Z) ms /\
  (total ms <= 10080)%Z.

(** The invariant of the data model, as a proposition. *)
Definition week_array (W : WeekState) (h : Habit) : Prop :=
  exists arr, ticks W !! habit_id h = Some arr /\ length arr = 7%nat.

Definition enabled_have_arrays (W : WeekState) : Prop :=
  forall h, h ∈ habits W -> enabled h = true -> week_array W h.

Definition other_fields_equal (W W' : WeekState) : Prop :=
  meta W' = meta W /\ metrics W' = metrics W /\ sections W' = sections W /\
  oneTime W' = oneTime W /\ wins W' = wins W /\ reflection W' = reflection W.

End Spec.

Import Spec.

(** ** Some weeks *)

Module Examples.

(** The first week of March 2024, as created at eight in the morning. *)
Definition march4 : WeekState :=
  newWeekState "2024-03-04" "2024-03-04T08:00:00.000Z".


(** ... with the Wednesday box of "sleep" ticked. *)
Definition march4_slept : WeekState :=
  with_ticks march4
    (<[ "sleep" := [false; false; true; false; false; false; false] ]> (ticks march4)).

(** ... with one minute of inner work on Monday and none afterwards. *)
Definition march4_one_minute : WeekState :=
  {| meta := meta march4;
     metrics := mkMetrics "Sleep hours" "" "2.5"
                  (1%float :: replicate 6 0%float) 60%float;
     habits := habits march4; ticks := ticks march4; sections := sections march4;
     oneTime := oneTime march4; wins := wins march4; reflection := reflection march4 |}.

(** ... with an infinite number of minutes on Monday, as a file with [1e999]
    there gives when it is imported. *)
Definition march4_endless : WeekState :=
  {| meta := meta march4;
     metrics := mkMetrics "Sleep hours" "" "2.5"
                  (infinity :: replicate 6 2%float) 60%float;
     habits := habits march4; ticks := ticks march4; sections := sections march4;
     oneTime := oneTime march4; wins := wins march4; reflection := reflection march4 |}.

(** ... with minutes that add up to 14 and a first entry so large that the
    second is lost when it is added to it. *)
Definition march4_large_minutes : WeekState :=
  {| meta := meta march4;
     metrics := mkMetrics "Sleep hours" "" "2.5"
                  [1e16; 1; -1e16; 13]%float 60%float;
     habits := habits march4; ticks := ticks march4; sections := sections march4;
     oneTime := oneTime march4; wins := wins march4; reflection := reflection march4 |}.

(** ... with the habit "Run" added, the random digits being 1234. *)
Definition march4_run : WeekState :=
  addHabit (Some "Run") "1234" march4.

(** A week whose only habit is enabled and has no array. *)
Definition no_arrays : WeekState :=
  with_habits_ticks march4 [mkHabit "walk" "Walk" true inner] ∅.


(** A store whose entry for the first week of March is the text [null], and
    one where it is the text of the empty object. *)
Definition null_stored : gmap string document :=
  {[ "inner-tracker-v2.2:2024-03-04" := json_text false Null ]}.

Definition empty_object_stored : gmap string document :=
  {[ "inner-tracker-v2.2:2024-03-04" := json_text false (Obj ∅) ]}.

(** The file that [exportJSON] writes for the week with an infinite number
    of minutes. *)
Definition march4_endless_file : document :=
  (exportJSON "2024-03-04" (week_value march4_endless)).2.

(** The page on that week, after its first render. *)
Definition page_march4_slept : World (text := document) :=
  persist_week (persist_pointer (mkWorld "2024-03-04" march4_slept ∅)).

(** Two readings of the clock on the Tuesday of that week. *)
Definition tuesday_9h00 : string := "2024-03-05T09:00:00.000Z".
Definition tuesday_9h05 : string := "2024-03-05T09:05:00.000Z".

End Examples.

Import Examples.

(** ** Custom sections *)

Module Sections.

(** [Section['type']] *)
Inductive SectionType : Type := checklist_type | notes_type | number_type.

Definition section_id (s : Section) : string :=
match s with
| checklist sid _ _ => sid
| notes sid _ _ => sid
| numberSection sid _ _ => sid
end.

Definition section_title (s : Section) : string :=
match s with
| checklist _ title _ => title
| notes _ title _ => title
| numberSection _ title _ => title
end.

Definition section_type (s : Section) : SectionType :=
match s with
| checklist _ _ _ => checklist_type
| notes _ _ _ => notes_type
| numberSection _ _ _ => number_type
end.

(** [{ ...p, sections: ss }] *)
Definition with_sections (p : WeekState) (ss : list Section) : WeekState :=
{| meta := meta p; metrics := metrics p; habits := habits p; ticks := ticks p;
   sections := ss; oneTime := oneTime p; wins := wins p; reflection := reflection p |}.

Definition defaultTitle (type : SectionType) : string :=
match type with
| checklist_type => "Custom Checklist"
| notes_type => "Notes"
| number_type => "Number"
end.

(** [addSection(type)]: [answer] is what [prompt] returned, [rnd] the digits
    cut out of the random number for the section and [rndItem] those for the
    first item of a checklist. *)
Definition addSection (type : SectionType) (answer : option string)
    (rnd rndItem : string) (p : WeekState) : WeekState :=
let title :=
  match answer with
  | Some t => if String.eqb t "" then defaultTitle type else t
  | None => defaultTitle type
  end in
let id := "sec-" +:+ rnd in
let section :=
  match type with
  | checklist_type => checklist id title [mkItem ("i-" +:+ rndItem) "New item" false]
  | notes_type => notes id title ""
  | number_type => numberSection id title 0%float
  end in
with_sections p (sections p ++ [section]).

(** [removeSection(id)]: [confirmed] is what [confirm] returned. *)
Definition removeSection (confirmed : bool) (id : string) (p : WeekState) : WeekState :=
if confirmed
then with_sections p
       (List.filter (fun s => negb (String.eqb (section_id s) id)) (sections p))
else p.

End Sections.

Import Sections.

(** ** The first week shown

    [mondayOfWeek] works on the local date of the host.  The host is
    [offset] minutes ahead of UTC, the whole time; instants are milliseconds
    since 1970-01-01T00:00Z. *)

Module LocalTime.

#[local] Open Scope Z_scope.

Definition msPerDay : Z := 86400000.

Definition LocalTime (offset t : Z) : Z := t + offset * 60000.

Definition UTC (offset t : Z) : Z := t - offset * 60000.

(** [Day(t)] and [WeekDay(t)] of the language definition; 0 is Sunday. *)
Definition Day (t : Z) : Z := t / msPerDay.

Definition WeekDay (t : Z) : Z := (Day t + 4) mod 7.

(** [mondayOfWeek(date)], [date] being an instant. *)
Definition mondayOfWeek (offset date : Z) : Z :=
let d := LocalTime offset date in
let day := (WeekDay d + 6) mod 7 in
(* d.setDate(d.getDate() - day) *)
let d1 := d - day * msPerDay in
(* d.setHours(0, 0, 0, 0) *)
let d2 := Day d1 * msPerDay in
UTC offset d2.

(** [formatISO(d)] for an instant. *)
Definition formatISO_at (t : Z) : string := formatISO (Day t).

(** The week the page opens on when nothing is stored:
    [formatISO(mondayOfWeek())]. *)
Definition initialWeekStart (offset now : Z) : string :=
formatISO_at (mondayOfWeek offset now).

End LocalTime.

Import LocalTime.

(** ** What a reload of the page reads *)

Module Page.

Section Reload.

Context {text : Type} `{!JSON text}.

(** Local storage holds the week that is shown under the key of the week that
    is shown. *)
Definition synced (w : World) : Prop :=
localStorage w !! storageKey (weekStartISO w)
= Some (JSON_stringify (week_value (week w))).

(** The pointer the page would start with after a reload:
    [useLocalState("inner-week-start", initial)]. *)
Definition reloadPointer (ls : gmap string text) (initial : string) : value :=
useLocalState_init ls "inner-week-start" (Str initial).

End Reload.

End Page.

Import Page.

(** ** Calendar checks *)

Module DateChecks.

#[local] Open Scope Z_scope.

Definition year_of (day : Z) : Z := (civil_from_days day).1.1.

(** The date of day [doe] of a 400-year era that starts on 1 March, the year
    counted from the start of the era and beginning in March. *)
Definition civil_in_era (doe : Z) : Z * Z * Z :=
let yoe := (doe - doe / 1460 + doe / 36524 - doe / 146096) / 365 in
let doy := doe - (365 * yoe + yoe / 4 - yoe / 100) in
let mp := (5 * doy + 2) / 153 in
let d := doy - (153 * mp + 2) / 5 + 1 in
let m := if mp <? 10 then mp + 3 else mp - 9 in
(yoe, m, d).

Definition day_in_era (yoe m d : Z) : Z :=
let mp := if 2 <? m then m - 3 else m + 9 in
let doy := (153 * mp + 2) / 5 + d - 1 in
yoe * 365 + yoe / 4 - yoe / 100 + doy.

(** Day [doe] of the era has a valid date that is day [doe] again. *)
Definition era_ok (doe : Z) : bool :=
let '(yoe, m, d) := civil_in_era doe in
(0 <=? yoe) && (yoe <=? 399) && (1 <=? m) && (m <=? 12) && (1 <=? d) &&
(d <=? days_in_month (if m <=? 2 then yoe + 1 else yoe) m) &&
(day_in_era yoe m d =? doe).

(** [f] on the [2 ^ bits] integers from [base] on. *)
Fixpoint all_from (f : Z -> bool) (bits : nat) (base : Z) : bool :=
match bits with
| O => f base
| S b => all_from f b base && all_from f b (base + 2 ^ Z.of_nat b)
end.

End DateChecks.

(** ** Checks on whole numbers of minutes *)

Module NumberChecks.

(** [f] on every integer below [2^bits]. *)
Fixpoint all_below (bits : nat) (f : int -> bool) : bool :=
  match bits with
  | O => f 0%uint63
  | S n => all_below n (fun k => f (2 * k)%uint63)
           && all_below n (fun k => f (2 * k + 1)%uint63)
  end.

Definition same (x y : number) : bool := PrimFloat.Leibniz.eqb x y.

(** A whole number of minutes of a day is kept by [Number(b || 0)], and its
    value is the integer it was made from. *)
Definition minute_ok (m : int) : bool :=
  (1440 <? m)%uint63
  || (same (Number_or0 (of_uint63 m)) (of_uint63 m)
      && match exact (of_uint63 m) with
         | Some (n # d) => (n =? to_Z m)%Z && (d =? 1)%positive
         | None => false
         end).

(** Adding the minutes [b] of a day to a running total [a] is exact. *)
Definition sum_ok (a b : int) : bool :=
  (1440 <? b)%uint63 || (10080 <? a + b)%uint63
  || same (of_uint63 a + of_uint63 b)%float (of_uint63 (a + b)).

Definition sums_ok (a : int) : bool :=
  (10080 <? a)%uint63 || all_below 11 (sum_ok a).

(** The progress computed from a whole total [t] is the exact quotient
    [100 * t / 14], rounded half up and capped. *)
Definition progress_ok (t : int) : bool :=
  (10080 <? t)%uint63
  || same (Math_min64 100%float
             (Math_round64 ((of_uint63 t / targetInnerMinutes) * 100)%float))
          (number_of_Z (Z.min 100 ((200 * to_Z t + 14) / 28))).

End NumberChecks.

Import NumberChecks.

Import DateChecks.

(** * Properties *)

(** ** Rounding and counting *)

Section Rounding.

Lemma Math_round_nearest (x : Q) : nearest (Math_round x) x.
Proof.
  unfold nearest, Math_round.
  pose proof (Qfloor_le (x + (1 # 2))) as Hlo.
  pose proof (Qlt_floor (x + (1 # 2))) as Hhi.
  rewrite inject_Z_plus in Hhi.
  change (inject_Z 1) with 1%Q in Hhi.
  generalize dependent (inject_Z (Qfloor (x + (1 # 2)))). intros f Hlo Hhi.
  apply Qabs_Qle_condition. split; lra.
Qed.


Lemma inject_Z_nonzero (b : Z) : (0 < b)%Z -> ~ (inject_Z b == 0)%Q.
Proof. intros Hb H. apply (inject_Z_injective b 0) in H. lia. Qed.

Lemma Math_round_ratio (a b : Z) :
  (0 < b)%Z ->
  Math_round ((inject_Z a / inject_Z b) * 100) = ((200 * a + b) / (2 * b))%Z.
Proof.
  intros Hb. unfold Math_round.
  rewrite Zdiv_Qdiv. apply Qfloor_comp.
  rewrite inject_Z_plus, !inject_Z_mult.
  field. by apply inject_Z_nonzero.
Qed.

Lemma percentOf_div (a b : nat) :
  b ≠ 0%nat ->
  percentOf a b = ((200 * Z.of_nat a + Z.of_nat b) / (2 * Z.of_nat b))%Z.
Proof.
  intros Hb. unfold percentOf. destruct b as [|b]; [done|].
  apply Math_round_ratio. lia.
Qed.

Lemma percentOf_range (a b : nat) : (a <= b)%nat -> (0 <= percentOf a b <= 100)%Z.
Proof.
  intros Hab. destruct (decide (b = 0%nat)) as [->|Hb]; [simpl; lia|].
  rewrite percentOf_div by done. split.
  - apply Z.div_pos; lia.
  - enough ((200 * Z.of_nat a + Z.of_nat b) / (2 * Z.of_nat b) < 101)%Z by lia.
    apply Z.div_lt_upper_bound; lia.
Qed.


End Rounding.

Section Counting.

Lemma tickCount_count (arr : list bool) :
  tickCount arr = count_occ bool_dec arr true.
Proof.
  unfold tickCount. induction arr as [|[] arr IH]; simpl; [done| |done].
  by rewrite IH.
Qed.


Lemma tickSum_from (W : WeekState) (hs : list Habit) (a : nat) :
  Forall (fun h => is_Some (ticks W !! habit_id h)) hs ->
  foldl (fun acc h =>
           sum ← acc; arr ← ticks W !! habit_id h; Some (sum + tickCount arr)%nat)
        (Some a) hs
  = Some (a + ticks_set_for W hs)%nat.
Proof.
  intros Hall. revert a.
  induction Hall as [|h hs [arr Harr] _ IH]; intros a; simpl.
  - f_equal. unfold ticks_set_for. simpl. lia.
  - rewrite Harr. simpl. rewrite IH. f_equal.
    assert (ticks_set W h = tickCount arr) as E.
    { unfold ticks_set. rewrite Harr. simpl. by rewrite tickCount_count. }
    unfold ticks_set_for. rewrite fmap_cons. simpl. lia.
Qed.

Lemma tickSum_Some (W : WeekState) (hs : list Habit) :
  Forall (fun h => is_Some (ticks W !! habit_id h)) hs ->
  tickSum W hs = Some (ticks_set_for W hs).
Proof. intros Hall. unfold tickSum. by rewrite tickSum_from. Qed.




Lemma Forall_ofKind (P : Habit -> Prop) (k : HabitKind) (hs : list Habit) :
  Forall P hs -> Forall P (ofKind k hs).
Proof.
  intros H. apply List.Forall_forall. intros h Hh.
  apply List.filter_In in Hh as [Hin _].
  rewrite List.Forall_forall in H. auto.
Qed.

Lemma enabledHabits_spec (W : WeekState) : enabledHabits W = enabled_habits W.
Proof.
  unfold enabledHabits, enabled_habits.
  induction (habits W) as [|h hs IH]; [done|]. simpl.
  rewrite filter_cons. destruct (enabled h) eqn:E.
  - rewrite decide_True by done. by rewrite IH.
  - by rewrite decide_False.
Qed.


End Counting.







(** ** Whole numbers of minutes *)

Section WholeMinutes.

#[local] Open Scope Z_scope.

Lemma of_Z_small (k : Z) : 0 <= k < wB -> Uint63.to_Z (Uint63.of_Z k) = k.
Proof. intros Hk. rewrite Uint63.of_Z_spec. by apply Z.mod_small. Qed.

Lemma of_Z_double (k : Z) : Uint63.of_Z (2 * k) = (2 * Uint63.of_Z k)%uint63.
Proof.
  apply Uint63.to_Z_inj.
  rewrite Uint63.mul_spec, !Uint63.of_Z_spec.
  change (Uint63.to_Z 2%uint63) with 2. by rewrite Z.mul_mod_idemp_r.
Qed.

Lemma of_Z_add (a b : Z) :
  Uint63.of_Z (a + b) = (Uint63.of_Z a + Uint63.of_Z b)%uint63.
Proof.
  apply Uint63.to_Z_inj.
  rewrite Uint63.add_spec, !Uint63.of_Z_spec.
  by rewrite <- Z.add_mod.
Qed.

Lemma all_below_spec (bits : nat) (f : int -> bool) :
  all_below bits f = true ->
  forall k, 0 <= k < 2 ^ Z.of_nat bits -> f (Uint63.of_Z k) = true.
Proof.
  revert f. induction bits as [|n IH]; intros f Hall k Hk.
  - simpl in Hall. change (2 ^ Z.of_nat 0) with 1 in Hk.
    by replace k with 0 by lia.
  - simpl in Hall. apply andb_prop in Hall as [He Ho].
    rewrite Nat2Z.inj_succ, Z.pow_succ_r in Hk by lia.
    destruct (Z.even k) eqn:E.
    + apply Z.even_spec in E as [q ->].
      rewrite of_Z_double. apply (IH _ He). lia.
    + rewrite <- Z.negb_odd in E. apply negb_false_iff, Z.odd_spec in E as [q ->].
      rewrite of_Z_add, of_Z_double. apply (IH _ Ho). lia.
Qed.

Lemma within (c : int) (k : Z) :
  0 <= k <= Uint63.to_Z c -> (c <? Uint63.of_Z k)%uint63 = false.
Proof.
  intros Hk. apply not_true_is_false. intros H.
  apply Uint63.ltb_spec in H.
  pose proof (Uint63.to_Z_bounded c).
  rewrite of_Z_small in H by lia. lia.
Qed.

Lemma below_wB (k : Z) : 0 <= k <= 10080 -> 0 <= k < wB.
Proof. change wB with 9223372036854775808. lia. Qed.

Lemma same_spec (x y : number) : same x y = true -> x = y.
Proof. apply FloatAxioms.Leibniz.eqb_spec. Qed.

Lemma number_of_whole (k : Z) : 0 <= k -> number_of_Z k = of_uint63 (Uint63.of_Z k).
Proof. intros Hk. unfold number_of_Z. by rewrite (proj2 (Z.ltb_ge k 0) Hk). Qed.

Lemma minutes_checked : all_below 11 minute_ok = true.
Proof. vm_cast_no_check (eq_refl true). Qed.

Lemma sums_checked : all_below 14 sums_ok = true.
Proof. vm_cast_no_check (eq_refl true). Qed.

Lemma progress_checked : all_below 14 progress_ok = true.
Proof. vm_cast_no_check (eq_refl true). Qed.

Lemma minute_kept (m : Z) :
  0 <= m <= 1440 ->
  Number_or0 (number_of_Z m) = number_of_Z m /\ exact (number_of_Z m) = Some (inject_Z m).
Proof.
  intros Hm. rewrite number_of_whole by lia.
  assert (minute_ok (Uint63.of_Z m) = true) as H.
  { apply (all_below_spec 11 minute_ok minutes_checked).
    change (2 ^ Z.of_nat 11) with 2048. lia. }
  unfold minute_ok in H.
  rewrite within in H by (change (Uint63.to_Z 1440) with 1440; lia).
  apply andb_prop in H as [H1 H2].
  split; [by apply same_spec|].
  destruct (exact _) as [[n d]|]; [|discriminate].
  apply andb_prop in H2 as [Hn Hd].
  apply Z.eqb_eq in Hn. apply Pos.eqb_eq in Hd.
  rewrite of_Z_small in Hn by (apply below_wB; lia).
  by subst.
Qed.

Lemma sum_whole (a b : Z) :
  0 <= a -> 0 <= b <= 1440 -> a + b <= 10080 ->
  (number_of_Z a + number_of_Z b)%float = number_of_Z (a + b).
Proof.
  intros Ha Hb Hab. rewrite !number_of_whole by lia.
  assert (sums_ok (Uint63.of_Z a) = true) as Ha'.
  { apply (all_below_spec 14 sums_ok sums_checked).
    change (2 ^ Z.of_nat 14) with 16384. lia. }
  unfold sums_ok in Ha'.
  rewrite within in Ha' by (change (Uint63.to_Z 10080) with 10080; lia).
  assert (sum_ok (Uint63.of_Z a) (Uint63.of_Z b) = true) as H.
  { apply (all_below_spec 11 (sum_ok (Uint63.of_Z a)) Ha').
    change (2 ^ Z.of_nat 11) with 2048. lia. }
  unfold sum_ok in H. rewrite <- of_Z_add in H.
  rewrite !within in H
    by (change (Uint63.to_Z 1440) with 1440; change (Uint63.to_Z 10080) with 10080; lia).
  by apply same_spec in H.
Qed.

Lemma progress_whole (t : Z) :
  0 <= t <= 10080 ->
  Math_min64 100%float (Math_round64 ((number_of_Z t / targetInnerMinutes) * 100)%float)
  = number_of_Z (Z.min 100 (Math_round (inject_Z t / 14 * 100))).
Proof.
  intros Ht. rewrite (number_of_whole t) by lia.
  assert (progress_ok (Uint63.of_Z t) = true) as H.
  { apply (all_below_spec 14 progress_ok progress_checked).
    change (2 ^ Z.of_nat 14) with 16384. lia. }
  unfold progress_ok in H.
  rewrite within in H by (change (Uint63.to_Z 10080) with 10080; lia).
  apply same_spec in H. rewrite H.
  rewrite of_Z_small by (apply below_wB; lia).
  do 2 f_equal. symmetry. apply (Math_round_ratio t 14). lia.
Qed.

Lemma total_minutes_from (ms : list Z) (a : Z) :
  0 <= a -> Forall (fun m => 0 <= m <= 1440) ms -> a + total ms <= 10080 ->
  foldl (fun a b => (a + Number_or0 b)%float) (number_of_Z a) (number_of_Z <$> ms)
  = number_of_Z (a + total ms).
Proof.
  intros Ha Hms. revert a Ha.
  induction Hms as [|m ms Hm Hms IH]; intros a Ha Hsum; simpl in *.
  - by rewrite Z.add_0_r.
  - assert (0 <= total ms) as Hpos.
    { clear -Hms. induction Hms; simpl; lia. }
    rewrite (proj1 (minute_kept m Hm)), sum_whole by lia.
    rewrite IH by lia. f_equal. lia.
Qed.

Lemma total_nonneg (ms : list Z) :
  Forall (fun m => 0 <= m <= 1440) ms -> 0 <= total ms.
Proof. induction 1; simpl; lia. Qed.

Lemma totalWeeklyMinutes_whole (W : WeekState) (ms : list Z) :
  whole_minutes W ms -> totalWeeklyMinutes W = Some (inject_Z (total ms)).
Proof.
  intros (Hd & Hms & _). unfold totalWeeklyMinutes. rewrite Hd. clear Hd.
  induction Hms as [|m ms Hm Hms IH]; [reflexivity|].
  rewrite fmap_cons. cbn [foldr]. rewrite IH, (proj2 (minute_kept m Hm)).
  cbn [mbind option_bind]. f_equal.
  change (total (m :: ms)) with (m + total ms).
  transitivity (Qred (inject_Z (m + total ms))).
  - apply Qred_complete. by rewrite inject_Z_plus.
  - apply Qred_identity, Z.gcd_1_r.
Qed.

Lemma innerProgress_whole (W : WeekState) (ms : list Z) :
  whole_minutes W ms ->
  innerProgress W
  = number_of_Z (Z.min 100 (Math_round (inject_Z (total ms) / 14 * 100))).
Proof.
  intros (Hd & Hms & Hsum). unfold innerProgress, totalInnerMinutes. rewrite Hd.
  change 0%float with (number_of_Z 0).
  rewrite total_minutes_from by (done || lia).
  apply progress_whole. pose proof (total_nonneg ms Hms). lia.
Qed.

End WholeMinutes.

(** C9, as stated, fails.  With one minute in the week the progress shown is
    7, not 100/14: the quotient is rounded.  And with the minutes 1e16, 1,
    -1e16 and 13, which add up to 14, the progress shown is 93, not 100: the
    total is computed in floating point, where 1e16 + 1 is 1e16. *)
Lemma innerProgress_not_exact :
  (innerProgress march4_one_minute = 7%float /\
   exact (innerProgress march4_one_minute) = Some 7%Q /\
   totalWeeklyMinutes march4_one_minute = Some 1%Q /\
   ~ (7 == Qmin 100 (1 / 14 * 100))%Q) /\
  (innerProgress march4_large_minutes = 93%float /\
   exact (innerProgress march4_large_minutes) = Some 93%Q /\
   totalWeeklyMinutes march4_large_minutes = Some 14%Q /\
   ~ (93 == Qmin 100 (14 / 14 * 100))%Q).
Proof.
  split; (split; [vm_compute; reflexivity|]);
    (split; [vm_compute; reflexivity|]);
    (split; [vm_compute; reflexivity|]);
    intros H; vm_compute in H; discriminate H.
Qed.

(** C9, amended.  When the minutes of the week are whole numbers, from 0 to
    1440 a day and at most 10080 together, the inner-minutes progress is
    min(100, round(total weekly minutes / 14 x 100)), the total being the sum
    of the [dailyInnerMinutes] entries and [round] the nearest integer. *)
Theorem innerProgress_spec (W : WeekState) (ms : list Z) :
  whole_minutes W ms ->
  totalWeeklyMinutes W = Some (inject_Z (total ms)) /\
  exists r : Z,
    nearest r (inject_Z (total ms) / 14 * 100) /\
    innerProgress W = number_of_Z (Z.min 100 r).
Proof.
  intros Hw. split; [by apply totalWeeklyMinutes_whole|].
  exists (Math_round (inject_Z (total ms) / 14 * 100)).
  split; [apply Math_round_nearest|by apply innerProgress_whole].
Qed.

(** The same on a new week, which has two minutes on each day. *)
Lemma innerProgress_spec_witness :
  whole_minutes march4 (replicate 7 2%Z) /\
  totalWeeklyMinutes march4 = Some 14%Q /\
  exists r : Z, innerProgress march4 = number_of_Z (Z.min 100 r).
Proof.
  assert (whole_minutes march4 (replicate 7 2%Z)) as Hw.
  { split; [vm_compute; reflexivity|].
    split; [repeat constructor; lia|vm_compute; discriminate]. }
  split; [exact Hw|].
  destruct (innerProgress_spec march4 (replicate 7 2%Z) Hw) as (Ht & r & _ & Hr).
  split; [exact Ht|]. exists r. exact Hr.
Defined.


(** ** Ticks *)

Lemma imap_set_entry (d : nat) (v : bool) (arr : list bool) :
  imap (fun i b => if Nat.eqb i d then v else b) arr = <[ d := v ]> arr.
Proof.
  apply list_eq. intros i. rewrite list_lookup_imap.
  destruct (decide (i = d)) as [->|Hne].
  - rewrite Nat.eqb_refl. destruct (arr !! d) eqn:E; simpl.
    + symmetry. apply list_lookup_insert_eq. by eapply lookup_lt_Some.
    + symmetry. rewrite list_insert_ge; [done|]. by apply lookup_ge_None.
  - rewrite list_lookup_insert_ne by done.
    apply Nat.eqb_neq in Hne. rewrite Hne. by destruct (arr !! i).
Qed.

(** C10.  When habit [h] has an array in the tick mapping, [setTick h d v]
    succeeds and changes nothing but entry [d] of that array: its other
    entries and its length, the arrays of the other habits, the habit list
    and all other fields of the week stay as they were. *)
Theorem setTick_frame (W : WeekState) (h : string) (d : nat) (v : bool) (arr : list bool) :
  ticks W !! h = Some arr ->
  exists W' arr',
    setTick h d v W = Some W' /\
    ticks W' !! h = Some arr' /\
    length arr' = length arr /\
    (d < length arr -> arr' !! d = Some v)%nat /\
    (forall i, i ≠ d -> arr' !! i = arr !! i) /\
    (forall h', h' ≠ h -> ticks W' !! h' = ticks W !! h') /\
    habits W' = habits W /\
    other_fields_equal W W'.
Proof.
  intros Harr. unfold setTick. rewrite Harr. simpl. rewrite imap_set_entry.
  eexists _, _. split; [reflexivity|]. simpl.
  split; [apply lookup_insert_eq|].
  split; [apply length_insert|].
  split; [apply list_lookup_insert_eq|].
  split; [intros i Hi; by apply list_lookup_insert_ne|].
  split; [intros h' Hh'; by apply lookup_insert_ne|].
  by repeat split.
Qed.

Lemma setTick_frame_witness :
  ticks march4 !! "sleep" = Some (Array7 false) /\
  exists W' arr',
    setTick "sleep" 2 true march4 = Some W' /\
    ticks W' !! "sleep" = Some arr' /\ arr' !! 2%nat = Some true /\
    ticks W' !! "move" = ticks march4 !! "move".
Proof.
  split; [reflexivity|].
  destruct (setTick_frame march4 "sleep" 2 true (Array7 false) eq_refl)
    as (W' & arr' & Hset & Hh & _ & Hd & _ & Hother & _).
  exists W', arr'. repeat split; [exact Hset|exact Hh| |].
  - apply Hd. simpl. lia.
  - apply Hother. discriminate.
Defined.

(** ** Adding and removing habits *)

Lemma filter_other_ids (id : string) (hs : list Habit) :
  forallb (fun h => negb (String.eqb (habit_id h) id)) hs = true ->
  List.filter (fun h => negb (String.eqb (habit_id h) id)) hs = hs.
Proof.
  induction hs as [|h hs IH]; [done|]. simpl.
  intros H. apply andb_true_iff in H as [Hh Hhs]. rewrite Hh. by rewrite IH.
Qed.

Lemma filter_same_id (id : string) (hs : list Habit) (h : Habit) :
  habit_id h = id ->
  List.filter (fun h => negb (String.eqb (habit_id h) id)) (hs ++ [h])
  = List.filter (fun h => negb (String.eqb (habit_id h) id)) hs.
Proof.
  intros <-. rewrite List.filter_app. simpl.
  rewrite String.eqb_refl. simpl. apply app_nil_r.
Qed.

(** C6, as stated, fails: when the identifier made for the new habit is
    already the identifier of a habit of the week, removing the new habit
    removes the old one too. *)
Lemma add_remove_colliding_id :
  forallb (fun h => negb (String.eqb (habit_id h) (newHabitId "Run" "1234")))
          (habits march4_run) = false /\
  enabled_habits
    (removeHabit true (newHabitId "Run" "1234") (addHabit (Some "Run") "1234" march4_run))
  ≠ enabled_habits march4_run.
Proof.
  split; [reflexivity|].
  intros H. apply (f_equal length) in H. vm_compute in H. discriminate H.
Qed.

(** C6, amended.  When the identifier made for the new habit is not yet the
    identifier of a habit of the week, adding the habit and then removing it
    restores the habit list, hence the enabled habits, deletes the tick array
    of the added habit (the tick mapping is the old one when it had no entry
    under that identifier), and leaves every other field as it was. *)
Theorem add_then_remove (W : WeekState) (name rnd : string) :
  name ≠ "" ->
  forallb (fun h => negb (String.eqb (habit_id h) (newHabitId name rnd))) (habits W) = true ->
  let id := newHabitId name rnd in
  let added := addHabit (Some name) rnd W in
  let W' := removeHabit true id added in
  ticks added !! id = Some (Array7 false) /\
  habits W' = habits W /\
  enabled_habits W' = enabled_habits W /\
  ticks W' !! id = None /\
  ticks W' = delete id (ticks W) /\
  (ticks W !! id = None -> ticks W' = ticks W) /\
  other_fields_equal W W'.
Proof.
  intros Hname Hfresh id added W'.
  assert (added = with_habits_ticks W (habits W ++ [mkHabit id name true inner])
                    (<[ id := Array7 false ]> (ticks W))) as Hadded.
  { unfold added, addHabit. apply String.eqb_neq in Hname. by rewrite Hname. }
  assert (habits W' = habits W) as Hhabits.
  { unfold W'. rewrite Hadded. simpl.
    rewrite filter_same_id by done. by apply filter_other_ids. }
  split; [rewrite Hadded; apply lookup_insert_eq|].
  split; [exact Hhabits|].
  split; [unfold enabled_habits; by rewrite Hhabits|].
  split; [unfold W'; simpl; apply lookup_delete_eq|].
  assert (ticks W' = delete id (ticks W)) as Hticks.
  { unfold W'. rewrite Hadded. simpl. apply delete_insert_eq. }
  split; [exact Hticks|].
  split; [intros Hnone; rewrite Hticks; by apply delete_id|].
  unfold W'. rewrite Hadded. by repeat split.
Qed.

Lemma add_then_remove_witness :
  "Run" ≠ "" /\
  forallb (fun h => negb (String.eqb (habit_id h) (newHabitId "Run" "1234")))
          (habits march4) = true /\
  habits (removeHabit true (newHabitId "Run" "1234") (addHabit (Some "Run") "1234" march4))
  = habits march4.
Proof.
  split; [discriminate|]. split; [reflexivity|].
  apply (add_then_remove march4 "Run" "1234"); [discriminate|reflexivity].
Defined.

(** ** The invariant *)

Lemma has_week_array_spec (W : WeekState) (h : Habit) :
  has_week_array (ticks W) h = true <-> week_array W h.
Proof.
  unfold has_week_array, week_array. split.
  - destruct (ticks W !! habit_id h) as [arr|]; [|done].
    intros H. apply Nat.eqb_eq in H. eauto.
  - intros (arr & -> & Hlen). by apply Nat.eqb_eq.
Qed.

Lemma ticks_ok_spec (W : WeekState) :
  ticks_ok W = true <-> enabled_have_arrays W.
Proof.
  unfold ticks_ok, enabled_have_arrays. rewrite forallb_forall. split.
  - intros H h Hin Hen. apply has_week_array_spec.
    apply list_elem_of_In in Hin. specialize (H h Hin). by rewrite Hen in H.
  - intros H h Hin. apply list_elem_of_In in Hin.
    destruct (enabled h) eqn:Hen; [|done]. simpl.
    apply has_week_array_spec. auto.
Qed.

Lemma all_ticks_ok_spec (W : WeekState) :
  all_ticks_ok W = true <-> forall h, h ∈ habits W -> week_array W h.
Proof.
  unfold all_ticks_ok. rewrite forallb_forall. split.
  - intros H h Hin. apply has_week_array_spec. apply H. by apply list_elem_of_In.
  - intros H h Hin. apply has_week_array_spec. apply H. by apply list_elem_of_In.
Qed.

Lemma all_ticks_ok_enabled (W : WeekState) :
  all_ticks_ok W = true -> ticks_ok W = true.
Proof.
  rewrite all_ticks_ok_spec, ticks_ok_spec. intros H h Hin _. auto.
Qed.

Lemma all_ticks_ok_new (weekStartISO now : string) :
  all_ticks_ok (newWeekState weekStartISO now) = true.
Proof. reflexivity. Qed.

Lemma updateHabit_arrays (id : string) (f : Habit -> Habit) (W : WeekState) :
  (forall h, habit_id (f h) = habit_id h) ->
  (forall h, h ∈ habits W -> week_array W h) ->
  forall h, h ∈ habits (updateHabit id f W) -> week_array (updateHabit id f W) h.
Proof.
  intros Hid Hok h Hin. unfold updateHabit in *. simpl in Hin.
  apply list_elem_of_In, List.in_map_iff in Hin as (h0 & <- & Hin0).
  destruct (Hok h0) as (arr & Harr & Hlen); [by apply list_elem_of_In|].
  exists arr. split; [|done]. simpl.
  destruct (String.eqb (habit_id h0) id); [by rewrite Hid|done].
Qed.

Lemma edit_all_ticks_ok (W W' : WeekState) :
  edit W W' -> all_ticks_ok W = true -> all_ticks_ok W' = true.
Proof.
  intros Hedit. rewrite !all_ticks_ok_spec.
  destruct Hedit as [answer rnd W|confirmed id W|habitId dayIndex val W W' Hset
                    |id name W|id on W|id k W|iso now W|iso W|W W' Hh Ht]; intros Hok.
  - (* addHabit *)
    unfold addHabit. destruct answer as [name|]; [|done].
    destruct (String.eqb name ""); [done|]. simpl.
    intros h Hin. apply elem_of_app in Hin as [Hin|Hin].
    + destruct (decide (habit_id h = newHabitId name rnd)) as [E|E].
      * exists (Array7 false). simpl. rewrite E, lookup_insert_eq. done.
      * destruct (Hok h Hin) as (arr & Harr & Hlen).
        exists arr. simpl. by rewrite lookup_insert_ne.
    + apply list_elem_of_singleton in Hin as ->.
      exists (Array7 false). simpl. by rewrite lookup_insert_eq.
  - (* removeHabit *)
    unfold removeHabit. destruct confirmed; [|done]. simpl.
    intros h Hin. apply list_elem_of_In, List.filter_In in Hin as [Hin Hne].
    apply negb_true_iff, String.eqb_neq in Hne.
    destruct (Hok h) as (arr & Harr & Hlen); [by apply list_elem_of_In|].
    exists arr. simpl. by rewrite lookup_delete_ne.
  - (* setTick *)
    unfold setTick in Hset. destruct (ticks W !! habitId) as [arr0|] eqn:E; [|done].
    simpl in Hset. injection Hset as <-. simpl.
    intros h Hin. destruct (Hok h Hin) as (arr & Harr & Hlen).
    destruct (decide (habit_id h = habitId)) as [<-|Hne].
    + eexists. simpl. rewrite lookup_insert_eq. split; [done|].
      rewrite length_imap. congruence.
    + exists arr. simpl. by rewrite lookup_insert_ne.
  - by apply updateHabit_arrays.
  - by apply updateHabit_arrays.
  - by apply updateHabit_arrays.
  - intros h Hin. apply all_ticks_ok_spec; [reflexivity|done].
  - done.
  - intros h Hin. rewrite Hh in Hin. destruct (Hok h Hin) as (arr & Harr & Hlen).
    exists arr. by rewrite Ht.
Qed.

Lemma reachable_edit_all_ticks_ok (W : WeekState) :
  reachable edit W -> all_ticks_ok W = true.
Proof.
  intros (weekStartISO & now & Hrtc). revert W Hrtc.
  apply (rtc_ind_r (fun W => all_ticks_ok W = true)).
  - apply all_ticks_ok_new.
  - intros W1 W2 _ Hedit IH. by eapply edit_all_ticks_ok.
Qed.

(** C3, as stated, fails: importing a file installs a week in which an
    enabled habit has no array. *)
Lemma import_breaks_invariant :
  reachable (step (text := document)) no_arrays /\
  ticks_ok no_arrays = false /\
  ~ enabled_have_arrays no_arrays.
Proof.
  split; [|split].
  - exists "2024-03-04", "2024-03-04T08:00:00.000Z".
    apply rtc_once.
    apply (step_import (json_text true (week_value no_arrays))).
    reflexivity.
  - reflexivity.
  - intros H. apply ticks_ok_spec in H. discriminate H.
Qed.

(** C3, amended.  In every week reached from a new week by the handlers that
    edit it (everything but the import of a file), every habit, enabled or
    not, has a seven-entry array in the tick mapping, and one more edit keeps
    it so; adding a habit gives it an array of seven [false], and removing a
    habit removes its array from the mapping. *)
Theorem edits_keep_arrays (W : WeekState) :
  reachable edit W ->
  enabled_have_arrays W /\
  (forall h, h ∈ habits W -> week_array W h) /\
  (forall W', edit W W' -> enabled_have_arrays W') /\
  (forall name rnd, name ≠ "" ->
     ticks (addHabit (Some name) rnd W) !! newHabitId name rnd = Some (replicate 7 false) /\
     enabled_have_arrays (addHabit (Some name) rnd W)) /\
  (forall id,
     ticks (removeHabit true id W) !! id = None /\
     enabled_have_arrays (removeHabit true id W)).
Proof.
  intros Hreach.
  pose proof (reachable_edit_all_ticks_ok W Hreach) as Hall.
  split; [by apply ticks_ok_spec, all_ticks_ok_enabled|].
  split; [by apply all_ticks_ok_spec|].
  split; [intros W' Hedit; by eapply ticks_ok_spec, all_ticks_ok_enabled, edit_all_ticks_ok|].
  split.
  - intros name rnd Hname. split.
    + unfold addHabit. apply String.eqb_neq in Hname. rewrite Hname. simpl.
      apply lookup_insert_eq.
    + apply ticks_ok_spec, all_ticks_ok_enabled.
      eapply edit_all_ticks_ok; [apply edit_addHabit|done].
  - intros id. split.
    + simpl. apply lookup_delete_eq.
    + apply ticks_ok_spec, all_ticks_ok_enabled.
      eapply edit_all_ticks_ok; [apply edit_removeHabit|done].
Qed.

Lemma edits_keep_arrays_witness :
  reachable edit march4_run /\ enabled_have_arrays march4_run.
Proof.
  assert (reachable edit march4_run) as Hreach.
  { exists "2024-03-04", "2024-03-04T08:00:00.000Z".
    apply rtc_once. apply edit_addHabit. }
  split; [exact Hreach|].
  exact (proj1 (edits_keep_arrays march4_run Hreach)).
Defined.

(** ** The stored object determines the week *)

Section Encoding.

#[local] Instance Bool_inj : Inj (=) (=) Bool.
Proof. intros ? ? H. by injection H. Qed.
#[local] Instance Num_inj : Inj (=) (=) Num.
Proof. intros ? ? H. by injection H. Qed.
#[local] Instance Str_inj : Inj (=) (=) Str.
Proof. intros ? ? H. by injection H. Qed.
#[local] Instance Arr_inj : Inj (=) (=) Arr.
Proof. intros ? ? H. by injection H. Qed.
#[local] Instance Obj_inj : Inj (=) (=) Obj.
Proof. intros ? ? H. by injection H. Qed.

(** Reading property [k] on both sides of an equation between objects. *)
Ltac property H k :=
  let E := fresh "E" in
  pose proof (f_equal (get k) H) as E; vm_compute in E;
  first [discriminate E | injection E as E].

#[local] Instance kind_value_inj : Inj (=) (=) kind_value.
Proof. intros [] [] H; try done; discriminate H. Qed.

#[local] Instance habit_value_inj : Inj (=) (=) habit_value.
Proof.
  intros [i1 n1 e1 k1] [i2 n2 e2 k2] H.
  property H "id". property H "name". property H "enabled". property H "kind".
  assert (k1 = k2) by (by destruct k1, k2). congruence.
Qed.

#[local] Instance item_value_inj : Inj (=) (=) item_value.
Proof.
  intros [i1 t1 d1] [i2 t2 d2] H.
  property H "id". property H "text". property H "done". congruence.
Qed.

#[local] Instance section_value_inj : Inj (=) (=) section_value.
Proof.
  intros [i1 t1 l1|i1 t1 x1|i1 t1 n1] [i2 t2 l2|i2 t2 x2|i2 t2 n2] H;
    try (pose proof (f_equal (get "type") H) as Etype; vm_compute in Etype;
         discriminate Etype);
    property H "id"; property H "title".
  - pose proof (f_equal (get "items") H) as Hitems.
    change (Some (Arr (item_value <$> l1)) = Some (Arr (item_value <$> l2))) in Hitems.
    apply (inj Some), (inj Arr), (inj (fmap item_value)) in Hitems. congruence.
  - property H "text". congruence.
  - property H "value". congruence.
Qed.

#[local] Instance meta_value_inj : Inj (=) (=) meta_value.
Proof.
  intros [w1 c1 t1 l1] [w2 c2 t2 l2] H.
  property H "weekStart". property H "createdAt". property H "theme".
  property H "logoDataUrl". congruence.
Qed.

#[local] Instance metrics_value_inj : Inj (=) (=) metrics_value.
Proof.
  intros [a1 b1 c1 d1 e1] [a2 b2 c2 d2 e2] H.
  property H "realMetricLabel". property H "realMetricValue".
  property H "screenTimeTarget". property H "innerShareEstimate".
  pose proof (f_equal (get "dailyInnerMinutes") H) as Hmin.
  change (Some (Arr (Num <$> d1)) = Some (Arr (Num <$> d2))) in Hmin.
  apply (inj Some), (inj Arr), (inj (fmap Num)) in Hmin. congruence.
Qed.

#[local] Instance oneTime_value_inj : Inj (=) (=) oneTime_value.
Proof.
  intros [a1 b1 c1 d1 e1 f1 g1] [a2 b2 c2 d2 e2 f2 g2] H.
  property H "whysTopic". property H "rootCause". property H "vanityFrom".
  property H "realTo". property H "seam". property H "bridgeAction".
  property H "bridgeWhen". congruence.
Qed.

#[local] Instance reflection_value_inj : Inj (=) (=) reflection_value.
Proof.
  intros [a1 b1 c1 d1 e1 f1 g1] [a2 b2 c2 d2 e2 f2 g2] H.
  property H "helped". property H "overPolish". property H "stop".
  property H "cont". property H "start". property H "nextInnerShare".
  property H "commitment". congruence.
Qed.

#[local] Instance ticks_value_inj : Inj (=) (=) ticks_value.
Proof.
  intros t1 t2 H. unfold ticks_value in H. apply (inj Obj) in H.
  revert H. apply map_fmap_inj. intros a1 a2 Ha.
  by apply (inj Arr), (inj (fmap Bool)) in Ha.
Qed.

Lemma week_value_inj : Inj (=) (=) week_value.
Proof.
  intros [m1 x1 h1 t1 s1 o1 w1 r1] [m2 x2 h2 t2 s2 o2 w2 r2] H.
  pose proof (f_equal (get "meta") H) as Em.
  change (Some (meta_value m1) = Some (meta_value m2)) in Em.
  pose proof (f_equal (get "metrics") H) as Ex.
  change (Some (metrics_value x1) = Some (metrics_value x2)) in Ex.
  pose proof (f_equal (get "habits") H) as Eh.
  change (Some (Arr (habit_value <$> h1)) = Some (Arr (habit_value <$> h2))) in Eh.
  pose proof (f_equal (get "ticks") H) as Et.
  change (Some (ticks_value t1) = Some (ticks_value t2)) in Et.
  pose proof (f_equal (get "sections") H) as Es.
  change (Some (Arr (section_value <$> s1)) = Some (Arr (section_value <$> s2))) in Es.
  pose proof (f_equal (get "oneTime") H) as Eo.
  change (Some (oneTime_value o1) = Some (oneTime_value o2)) in Eo.
  pose proof (f_equal (get "wins") H) as Ew.
  change (Some (Arr (Str <$> w1)) = Some (Arr (Str <$> w2))) in Ew.
  pose proof (f_equal (get "reflection") H) as Er.
  change (Some (reflection_value r1) = Some (reflection_value r2)) in Er.
  apply (inj Some), (inj meta_value) in Em.
  apply (inj Some), (inj metrics_value) in Ex.
  apply (inj Some), (inj Arr), (inj (fmap habit_value)) in Eh.
  apply (inj Some), (inj ticks_value) in Et.
  apply (inj Some), (inj Arr), (inj (fmap section_value)) in Es.
  apply (inj Some), (inj oneTime_value) in Eo.
  apply (inj Some), (inj Arr), (inj (fmap Str)) in Ew.
  apply (inj Some), (inj reflection_value) in Er.
  congruence.
Qed.

End Encoding.

(** ** What JSON keeps of a week *)

Lemma written_number (n : number) : json_number n = true -> written (Num n) = Num n.
Proof.
  unfold json_number. cbn [written].
  destruct (PrimFloat.Leibniz.eqb n (-0)%float); [done|]. simpl. by intros ->.
Qed.

Lemma written_obj (props : list (string * value)) :
  written (obj props) = obj (prod_map id written <$> props).
Proof.
  unfold obj. change (Obj (written <$> list_to_map props)
                      = Obj (list_to_map (prod_map id written <$> props))).
  f_equal. symmetry. apply list_to_map_fmap.
Qed.

Lemma written_list {A} (f : A -> value) (l : list A) :
  Forall (fun x => written (f x) = f x) l -> written (Arr (f <$> l)) = Arr (f <$> l).
Proof.
  intros H. change (Arr (written <$> (f <$> l)) = Arr (f <$> l)). f_equal.
  rewrite <- list_fmap_compose. by apply Forall_fmap_ext.
Qed.

Lemma written_numbers (l : list number) :
  forallb json_number l = true -> written (Arr (Num <$> l)) = Arr (Num <$> l).
Proof.
  intros H. apply written_list, Forall_forall. intros n Hn.
  apply written_number. apply (proj1 (forallb_forall _ _) H).
  by apply list_elem_of_In.
Qed.

Lemma written_habits (hs : list Habit) :
  written (Arr (habit_value <$> hs)) = Arr (habit_value <$> hs).
Proof. apply written_list, Forall_forall. by intros [? ? ? []] _. Qed.

Lemma written_ticks (t : gmap string (list bool)) :
  written (ticks_value t) = ticks_value t.
Proof.
  unfold ticks_value.
  change (Obj (written <$> ((fun arr => Arr (Bool <$> arr)) <$> t))
          = Obj ((fun arr => Arr (Bool <$> arr)) <$> t)).
  f_equal. rewrite <- map_fmap_compose. apply map_fmap_ext.
  intros k arr _. apply (written_list Bool), Forall_forall. done.
Qed.

Lemma written_section (s : Section) :
  section_json_number s = true -> written (section_value s) = section_value s.
Proof.
  destruct s as [sid title items|sid title text|sid title val];
    unfold section_json_number, section_value; intros Hs.
  - rewrite written_obj. cbn [fmap list_fmap prod_map fst snd id].
    rewrite written_list; [done|]. apply Forall_forall. by intros [] _.
  - reflexivity.
  - rewrite written_obj. cbn [fmap list_fmap prod_map fst snd id].
    by rewrite written_number.
Qed.

Lemma written_sections (ss : list Section) :
  forallb section_json_number ss = true ->
  written (Arr (section_value <$> ss)) = Arr (section_value <$> ss).
Proof.
  intros H. apply written_list, Forall_forall. intros s Hs.
  apply written_section. apply (proj1 (forallb_forall _ _) H).
  by apply list_elem_of_In.
Qed.

(** The object of a week whose numbers JSON has texts for is written and
    read back as it is. *)
Lemma written_week_value (W : WeekState) :
  json_numbers W = true -> written (week_value W) = week_value W.
Proof.
  unfold json_numbers. intros H.
  apply andb_prop in H as [H Hsections]. apply andb_prop in H as [H Hnext].
  apply andb_prop in H as [Hminutes Hshare].
  unfold week_value. rewrite written_obj. cbn [fmap list_fmap prod_map fst snd id].
  rewrite written_habits, written_ticks, written_sections by done.
  assert (written (metrics_value (metrics W)) = metrics_value (metrics W)) as ->.
  { unfold metrics_value. rewrite written_obj. cbn [fmap list_fmap prod_map fst snd id].
    by rewrite written_numbers, written_number. }
  assert (written (reflection_value (reflection W)) = reflection_value (reflection W)) as ->.
  { unfold reflection_value. rewrite written_obj.
    cbn [fmap list_fmap prod_map fst snd id]. by rewrite written_number. }
  assert (written (Arr (Str <$> wins W)) = Arr (Str <$> wins W)) as ->.
  { apply (written_list Str), Forall_forall. done. }
  reflexivity.
Qed.

(** ** Import and export *)

Section ImportExport.

Context {text : Type} `{!JSON text}.

Lemma has_get (k : string) (v : value) : has k v = true -> is_Some (get k v).
Proof. unfold has. destruct (get k v); [eauto|done]. Qed.

Lemma week_value_required (W : WeekState) :
  has "meta" (week_value W) = true /\
  has "habits" (week_value W) = true /\
  has "ticks" (week_value W) = true.
Proof. repeat split. Qed.

Lemma importJSON_week (contents : text) (W : WeekState) (current : value) :
  JSON_parse contents = Some (week_value W) ->
  importJSON contents current = (week_value W, None).
Proof.
  intros Hparse. unfold importJSON. rewrite Hparse.
  destruct (week_value_required W) as (-> & -> & ->). reflexivity.
Qed.

(** C4.  [importJSON] shows no alert, and then installs the parsed document as
    the state, only if the file parses as JSON and has the properties [meta],
    [habits] and [ticks] (exactly when all three are truthy); when the file
    does not parse, or one of the three is missing, it shows an alert and
    leaves the state as it was. *)
Theorem importJSON_spec (contents : text) (current : value) :
  let after := (importJSON contents current).1 in
  let alert := (importJSON contents current).2 in
  (alert = None ->
     exists data, JSON_parse contents = Some data /\
       is_Some (get "meta" data) /\ is_Some (get "habits" data) /\
       is_Some (get "ticks" data) /\ after = data) /\
  (alert = None <->
     exists data, JSON_parse contents = Some data /\
       has "meta" data = true /\ has "habits" data = true /\ has "ticks" data = true) /\
  (JSON_parse contents = None ->
     after = current /\ alert = Some "Could not read file") /\
  (forall data, JSON_parse contents = Some data ->
     get "meta" data = None \/ get "habits" data = None \/ get "ticks" data = None ->
     after = current /\ alert = Some "Invalid file format") /\
  (alert ≠ None -> after = current).
Proof.
  unfold importJSON. destruct (JSON_parse contents) as [data|] eqn:Hparse.
  - destruct (has "meta" data) eqn:Hm, (has "habits" data) eqn:Hh,
      (has "ticks" data) eqn:Ht; simpl;
      (split; [intros ?; try discriminate; exists data; eauto 10 using has_get|]);
      (split; [split; [intros ?; try discriminate; eauto 10
                      |intros (d & Hd & ? & ? & ?); injection Hd as <-; congruence]|]);
      (split; [discriminate|]);
      (split; [|done]);
      intros d Hd Hmiss; injection Hd as <-; unfold has in *;
      destruct Hmiss as [E|[E|E]]; rewrite E in *; done.
  - simpl. split; [discriminate|].
    split; [split; [discriminate|intros (d & Hd & _); discriminate]|].
    split; [done|]. split; [discriminate|done].
Qed.

(** C5, as stated, fails: JSON has no text for an infinite number, and
    [JSON.stringify] writes [null] in its place.  The week with an infinite
    number of minutes on Monday is exported with [null] there; importing the
    file is accepted and installs that object, which is not the object of
    the week. *)
Lemma export_loses_infinity :
  json_numbers march4_endless = false /\
  (importJSON march4_endless_file Null).2 = None /\
  (importJSON march4_endless_file Null).1 ≠ week_value march4_endless /\
  (get "metrics" (week_value march4_endless) ≫= get "dailyInnerMinutes")
    = Some (Arr (Num infinity :: replicate 6 (Num 2%float))) /\
  (get "metrics" (importJSON march4_endless_file Null).1 ≫= get "dailyInnerMinutes")
    = Some (Arr (Null :: replicate 6 (Num 2%float))).
Proof.
  split; [reflexivity|]. split; [reflexivity|].
  split; [|split; vm_compute; reflexivity].
  intros H.
  apply (f_equal (fun v => get "metrics" v ≫= get "dailyInnerMinutes")) in H.
  vm_compute in H. discriminate H.
Qed.

(** C5, amended.  For a week whose numbers are numbers of JSON (finite, and
    not the negative zero), importing the file that [exportJSON] writes
    installs the object of that week, whatever the state was before, and
    shows no alert; no other week has that object. *)
Theorem export_import_roundtrip (W : WeekState) (weekStartISO : string) (current : value) :
  json_numbers W = true ->
  let file := (exportJSON weekStartISO (week_value W)).2 in
  importJSON file current = (week_value W, None) /\
  forall W', (importJSON file current).1 = week_value W' -> W' = W.
Proof.
  intros Hnum file.
  assert (importJSON file current = (week_value W, None)) as Himport.
  { apply importJSON_week. unfold file, exportJSON. simpl.
    rewrite parse_stringify_pretty. by rewrite written_week_value. }
  split; [exact Himport|].
  intros W' HW'. rewrite Himport in HW'. symmetry. by apply week_value_inj.
Qed.

(** ** Local storage *)

Lemma parse_nonempty (raw : text) (v : value) :
  JSON_parse raw = Some v -> nonempty raw = true.
Proof.
  intros Hparse. destruct (nonempty raw) eqn:E; [done|].
  apply parse_empty in E. congruence.
Qed.

Lemma storageKey_not_pointer (weekStartISO : string) :
  storageKey weekStartISO ≠ "inner-week-start".
Proof. discriminate. Qed.

Lemma append_inj (p a b : string) : p +:+ a = p +:+ b -> a = b.
Proof. induction p as [|c p IH]; [done|]. simpl. intros [= H]. auto. Qed.

Lemma storageKey_inj (a b : string) : storageKey a = storageKey b -> a = b.
Proof. apply append_inj. Qed.

Lemma Object_fromEntries_other {A} (entries : list (string * A)) (k : string) :
  Forall (fun e => e.1 ≠ k) entries -> Object_fromEntries entries !! k = None.
Proof.
  unfold Object_fromEntries.
  assert (forall m : gmap string A,
            Forall (fun e => e.1 ≠ k) entries ->
            foldl (fun m e => <[ e.1 := e.2 ]> m) m entries !! k = m !! k) as Hgen.
  { induction entries as [|e entries IH]; intros m Hall; [done|].
    apply Forall_cons in Hall as [He Hall]. simpl.
    rewrite IH by done. by apply lookup_insert_ne. }
  intros Hall. by rewrite Hgen.
Qed.

Lemma newWeekState_ticks (weekStartISO now id : string) :
  (id ∈ habit_id <$> DEFAULT_HABITS ->
   ticks (newWeekState weekStartISO now) !! id = Some (replicate 7 false)) /\
  (id ∉ habit_id <$> DEFAULT_HABITS ->
   ticks (newWeekState weekStartISO now) !! id = None).
Proof.
  split; intros Hid.
  - apply list_elem_of_In in Hid. simpl in Hid.
    repeat (destruct Hid as [<-|Hid]; [reflexivity|]). destruct Hid.
  - apply Object_fromEntries_other.
    rewrite list_elem_of_In in Hid. simpl in Hid.
    repeat (constructor; [simpl; intros E; apply Hid; rewrite <- E; tauto|]).
    constructor.
Qed.

Lemma useLocalState_init_key (ls ls' : gmap string text) (key : string) (initial : value) :
  ls' !! key = ls !! key ->
  useLocalState_init ls' key initial = useLocalState_init ls key initial.
Proof. intros H. unfold useLocalState_init. by rewrite H. Qed.

(** C8, as stated, fails: an entry that is JSON but not a week state is not
    replaced by the default state.  With the text [null], or the text of the
    empty object, stored for the week, that value is what [loadOrCreate]
    returns; it is not the default state, and it has no [habits], which the
    first render of the page reads. *)
Lemma corrupt_entry_is_loaded :
  (loadOrCreate null_stored "2024-03-04" tuesday_9h00 = Null /\
   Null ≠ week_value (newWeekState "2024-03-04" tuesday_9h00) /\
   get "habits" Null = None) /\
  (loadOrCreate empty_object_stored "2024-03-04" tuesday_9h00 = Obj ∅ /\
   Obj ∅ ≠ week_value (newWeekState "2024-03-04" tuesday_9h00) /\
   get "habits" (Obj ∅) = None).
Proof.
  split; (split; [vm_compute; reflexivity|]); (split; [|reflexivity]).
  - discriminate.
  - intros H. apply (f_equal (get "habits")) in H. vm_compute in H. discriminate H.
Qed.

(** C8, amended.  For every content of local storage, [loadOrCreate] reads
    the entry under the prefix followed by the week-start date and nothing
    else.  It returns what that entry parses to (so the week that was saved
    there, when its numbers are numbers of JSON), and the new default week
    when there is no entry or when the entry is not JSON; it always returns
    one of the two.  The default week carries the date asked for and the
    time of its creation, the nine default habits with none of their boxes
    ticked, two minutes on each day, no custom section and empty texts; its
    score is 0. *)
Theorem loadOrCreate_spec (ls : gmap string text) (weekStartISO now : string) :
  let key := "inner-tracker-v2.2:" +:+ weekStartISO in
  let fresh := newWeekState weekStartISO now in
  let loaded := loadOrCreate ls weekStartISO now in
  ((forall raw v, ls !! key = Some raw -> JSON_parse raw = Some v -> loaded = v) /\
   (forall v, ls !! key = Some (JSON_stringify v) -> loaded = written v) /\
   (forall W, json_numbers W = true ->
      ls !! key = Some (JSON_stringify (week_value W)) -> loaded = week_value W) /\
   (ls !! key = None -> loaded = week_value fresh) /\
   (forall raw, ls !! key = Some raw -> JSON_parse raw = None ->
                loaded = week_value fresh) /\
   (loaded = week_value fresh \/
    exists raw, ls !! key = Some raw /\ JSON_parse raw = Some loaded)) /\
  ((forall ls', ls' !! key = ls !! key -> loadOrCreate ls' weekStartISO now = loaded) /\
   (forall other raw, other ≠ weekStartISO ->
      loadOrCreate (<[ "inner-tracker-v2.2:" +:+ other := raw ]> ls) weekStartISO now
      = loaded) /\
   (forall raw,
      loadOrCreate (<[ "inner-week-start" := raw ]> ls) weekStartISO now = loaded)) /\
  (meta fresh = mkMeta weekStartISO now "" "" /\
   metrics fresh = mkMetrics "Sleep hours" "" "2.5" (replicate 7 2%float) 60%float /\
   habits fresh = DEFAULT_HABITS /\
   (forall id, ticks fresh !! id
               = if bool_decide (id ∈ habit_id <$> DEFAULT_HABITS)
                 then Some (replicate 7 false) else None) /\
   sections fresh = [] /\
   oneTime fresh = mkOneTime "" "" "" "" "" "" "" /\
   wins fresh = replicate 5 "" /\
   reflection fresh = mkReflection "" "" "" "" "" 60%float "" /\
   habitScore fresh = Some 0%Z).
Proof.
  intros key fresh loaded.
  change key with (storageKey weekStartISO) in *.
  split; [|split].
  - unfold loaded, loadOrCreate, useLocalState_init. fold fresh.
    assert (forall raw v, ls !! storageKey weekStartISO = Some raw ->
              JSON_parse raw = Some v ->
              match ls !! storageKey weekStartISO with
              | Some raw => if nonempty raw
                            then match JSON_parse raw with
                                 | Some v => v
                                 | None => week_value fresh
                                 end
                            else week_value fresh
              | None => week_value fresh
              end = v) as Hload.
    { intros raw v -> Hparse. by rewrite (parse_nonempty raw v Hparse), Hparse. }
    split; [exact Hload|].
    split; [intros v Hv; apply (Hload _ _ Hv), parse_stringify|].
    split.
    { intros W HW Hv. apply (Hload _ _ Hv).
      by rewrite parse_stringify, written_week_value. }
    split; [by intros ->|].
    split.
    + intros raw -> Hparse. rewrite Hparse. by destruct (nonempty raw).
    + destruct (ls !! storageKey weekStartISO) as [raw|]; [|by left].
      destruct (nonempty raw); [|by left].
      destruct (JSON_parse raw) as [v|] eqn:Hparse; [|by left].
      right. eauto.
  - split; [|split].
    + intros ls' Hls'. by apply useLocalState_init_key.
    + intros other raw Hother. apply useLocalState_init_key.
      apply lookup_insert_ne. intros E. by apply (append_inj _ _ _) in E.
    + intros raw. apply useLocalState_init_key.
      apply lookup_insert_ne. discriminate.
  - split; [reflexivity|]. split; [reflexivity|]. split; [reflexivity|].
    split; [|by repeat split].
    intros id. destruct (newWeekState_ticks weekStartISO now id) as [Hin Hout].
    case_bool_decide; auto.
Qed.

End ImportExport.

(** The same on the week with one tick set, imported over another week. *)
Lemma export_import_roundtrip_witness :
  json_numbers march4_slept = true /\
  importJSON (text := document)
    (exportJSON "2024-03-04" (week_value march4_slept)).2 (week_value march4)
  = (week_value march4_slept, None).
Proof.
  split; [reflexivity|].
  exact (proj1 (export_import_roundtrip march4_slept "2024-03-04"
                  (week_value march4) eq_refl)).
Defined.

(** ** Switching weeks *)

Section Shifting.

Context {text : Type} `{!JSON text}.

Lemma with_weekStart_same (p : WeekState) (weekStartISO : string) :
  weekStart (meta p) = weekStartISO -> with_weekStart p weekStartISO = p.
Proof. intros <-. by destruct p as [[] ? ? ? ? ? ? ?]. Qed.

Lemma shiftWeek_keeps_shown_week (delta : Z) (now : string) (w : World) (d : Z) :
  Date_parse (weekStartISO w) = Some d ->
  formatISO (d + delta * 7) ≠ weekStartISO w ->
  stored (localStorage w) (storageKey (formatISO (d + delta * 7))) = true ->
  exists w',
    shiftWeek delta now w = Some w' /\
    weekStartISO w' = formatISO (d + delta * 7) /\
    week w' = with_weekStart (week w) (formatISO (d + delta * 7)) /\
    localStorage w' !! storageKey (formatISO (d + delta * 7))
    = Some (JSON_stringify (week_value (with_weekStart (week w) (formatISO (d + delta * 7))))).
Proof.
  intros Hparse Hmoved Hstored. unfold shiftWeek. rewrite Hparse. simpl.
  rewrite Hstored. apply String.eqb_neq in Hmoved. rewrite Hmoved. simpl.
  eexists. split; [reflexivity|].
  unfold sync_weekStart. simpl.
  destruct (String.eqb (weekStart (meta (week w))) (formatISO (d + delta * 7))) eqn:E; simpl.
  - apply String.eqb_eq in E. rewrite (with_weekStart_same _ _ E).
    split; [done|]. split; [done|]. apply lookup_insert_eq.
  - split; [done|]. split; [done|]. apply lookup_insert_eq.
Qed.

End Shifting.

(** C7 fails on the code.  From the week of 2024-03-04 with one tick set and
    nothing stored for the next week, [shiftWeek(1)] and then [shiftWeek(-1)]
    bring the pointer back to 2024-03-04, but the entry stored for that week
    is then the new week created by the first shift, not the week with the
    tick. *)
Theorem shift_forth_and_back_loses_week :
  exists w1 w2,
    shiftWeek 1 tuesday_9h00 page_march4_slept = Some w1 /\
    shiftWeek (-1) tuesday_9h05 w1 = Some w2 /\
    weekStartISO w1 = "2024-03-11" /\
    weekStartISO w2 = "2024-03-04" /\
    localStorage page_march4_slept !! storageKey "2024-03-04"
      = Some (JSON_stringify (week_value march4_slept)) /\
    localStorage w2 !! storageKey "2024-03-04"
      = Some (JSON_stringify
                (week_value (with_weekStart (newWeekState "2024-03-11" tuesday_9h00) "2024-03-04"))) /\
    localStorage w2 !! storageKey "2024-03-04"
      ≠ localStorage page_march4_slept !! storageKey "2024-03-04".
Proof.
  pose (w1 := default page_march4_slept (shiftWeek 1 tuesday_9h00 page_march4_slept)).
  pose (w2 := default page_march4_slept (shiftWeek (-1) tuesday_9h05 w1)).
  exists w1, w2.
  split; [vm_cast_no_check (eq_refl (Some w1))|].
  split; [vm_cast_no_check (eq_refl (Some w2))|].
  split; [vm_cast_no_check (eq_refl "2024-03-11")|].
  split; [vm_cast_no_check (eq_refl "2024-03-04")|].
  split; [vm_cast_no_check (eq_refl (Some (JSON_stringify (week_value march4_slept))))|].
  split; [vm_cast_no_check (eq_refl (localStorage w2 !! storageKey "2024-03-04"))|].
  intros H.
  apply (f_equal (fun o => raw ← o; v ← JSON_parse raw; t ← get "ticks" v; get "sleep" t)) in H.
  vm_compute in H. discriminate H.
Qed.


(** ** Worked examples *)

Example newHabitId_example :
  newHabitId "Read  10 Pages! (daily)" "1234" = "read-10-pages-daily-1234".
Proof. reflexivity. Qed.

Example formatISO_example :
  Date_parse "2024-03-04" = Some 19786%Z /\
  formatISO (19786 + 7) = "2024-03-11" /\
  formatISO (19786 - 7) = "2024-02-26".
Proof. repeat split. Qed.

Example habitScore_example :
  habitScore march4 = Some 0%Z /\
  habitScore march4_slept = Some 2%Z /\
  habitScore no_arrays = None.
Proof. repeat split. Qed.

Example innerProgress_example :
  innerProgress march4 = 100%float.
Proof. vm_compute. reflexivity. Qed.

Example loadOrCreate_example :
  loadOrCreate (text := document) ∅ "2024-03-04" tuesday_9h00
    = week_value (newWeekState "2024-03-04" tuesday_9h00) /\
  loadOrCreate {[ storageKey "2024-03-04" := other_text "{oops" ]} "2024-03-04" tuesday_9h00
    = week_value (newWeekState "2024-03-04" tuesday_9h00) /\
  loadOrCreate {[ storageKey "2024-03-04" := JSON_stringify (week_value march4_slept) ]}
      "2024-03-04" tuesday_9h00
    = week_value march4_slept.
Proof. repeat split. Qed.

Example importJSON_example :
  importJSON (other_text "not json") (week_value march4)
    = (week_value march4, Some "Could not read file") /\
  importJSON (json_text true (obj [("meta", obj []); ("ticks", obj [])])) (week_value march4)
    = (week_value march4, Some "Invalid file format").
Proof. repeat split. Qed.

(** * Further properties *)

(** ** More on the derived metrics *)

Lemma tickSum_None_from (W : WeekState) (hs : list Habit) :
  foldl (fun acc h =>
           sum ← acc; arr ← ticks W !! habit_id h; Some (sum + tickCount arr)%nat)
        None hs = None.
Proof. induction hs as [|h hs IH]; [done|]. exact IH. Qed.

Lemma tickSum_missing (W : WeekState) (hs : list Habit) (a : nat) :
  Exists (fun h => ticks W !! habit_id h = None) hs ->
  foldl (fun acc h =>
           sum ← acc; arr ← ticks W !! habit_id h; Some (sum + tickCount arr)%nat)
        (Some a) hs = None.
Proof.
  intros Hex. revert a. induction hs as [|h hs IH]; intros a.
  - by apply Exists_nil in Hex.
  - cbn [foldl]. destruct (ticks W !! habit_id h) as [arr|] eqn:E; simpl.
    + apply IH. apply Exists_cons in Hex as [Hh|Hhs]; [congruence|done].
    + apply tickSum_None_from.
Qed.

Lemma tickSum_is_Some (W : WeekState) (hs : list Habit) :
  is_Some (tickSum W hs) <-> Forall (fun h => is_Some (ticks W !! habit_id h)) hs.
Proof.
  split.
  - intros [t Ht]. apply Forall_forall. intros h Hin.
    destruct (ticks W !! habit_id h) as [arr|] eqn:E; [eauto|].
    unfold tickSum in Ht. rewrite tickSum_missing in Ht; [done|].
    apply Exists_exists. eauto.
  - intros Hall. rewrite (tickSum_Some W hs Hall). eauto.
Qed.

(** X1.  Computing the habit score throws if and only if some enabled habit
    has no entry in the tick mapping; the lengths of the arrays play no
    part. *)
Theorem habitScore_throws_iff (W : WeekState) :
  habitScore W = None <->
  exists h, h ∈ enabled_habits W /\ ticks W !! habit_id h = None.
Proof.
  unfold habitScore, ticksCount. rewrite enabledHabits_spec.
  destruct (tickSum W (enabled_habits W)) as [t|] eqn:E; simpl.
  - split; [done|]. intros (h & Hin & Hnone).
    assert (is_Some (tickSum W (enabled_habits W))) as Hs by eauto.
    apply tickSum_is_Some in Hs. rewrite Forall_forall in Hs.
    destruct (Hs h Hin) as [arr Harr]. congruence.
  - split; [|done]. intros _.
    destruct (decide (Forall (fun h => is_Some (ticks W !! habit_id h)) (enabled_habits W)))
      as [Hall|Hnot].
    + apply tickSum_is_Some in Hall. rewrite E in Hall. by destruct Hall.
    + apply not_Forall_Exists in Hnot; [|apply _].
      apply Exists_exists in Hnot as (h & Hin & Hn).
      exists h. split; [done|]. by apply eq_None_not_Some.
Qed.

Lemma ticks_set_for_cons (W : WeekState) (h : Habit) (hs : list Habit) :
  ticks_set_for W (h :: hs) = (ticks_set W h + ticks_set_for W hs)%nat.
Proof. reflexivity. Qed.

Lemma ticks_set_for_kinds (W : WeekState) (hs : list Habit) :
  (ticks_set_for W (ofKind inner hs) + ticks_set_for W (ofKind outer hs))%nat
  = ticks_set_for W hs.
Proof.
  induction hs as [|h hs IH]; [done|].
  rewrite ticks_set_for_cons, <- IH.
  unfold ofKind, kind_eqb. cbn [List.filter].
  destruct (kind h); simpl; rewrite ticks_set_for_cons; lia.
Qed.

(** X2.  Every tick that counts for the score counts as an inner or as an outer
    tick: whenever the page can count the ticks, the inner and outer counts
    add up to [ticksCount]. *)
Theorem inner_outer_partition (W : WeekState) (t : nat) :
  ticksCount W = Some t ->
  exists i o, innerTicks W = Some i /\ outerTicks W = Some o /\ (i + o)%nat = t.
Proof.
  intros Ht.
  assert (Forall (fun h => is_Some (ticks W !! habit_id h)) (enabledHabits W)) as Hall.
  { apply tickSum_is_Some. unfold ticksCount in Ht. rewrite Ht. eauto. }
  unfold ticksCount in Ht. rewrite (tickSum_Some W _ Hall) in Ht. injection Ht as <-.
  exists (ticks_set_for W (ofKind inner (enabledHabits W))),
         (ticks_set_for W (ofKind outer (enabledHabits W))).
  split; [apply tickSum_Some; by apply Forall_ofKind|].
  split; [apply tickSum_Some; by apply Forall_ofKind|].
  apply ticks_set_for_kinds.
Qed.

(** X3.  Whenever [innerPct] is computed it lies between 0 and 100, whatever the
    lengths of the tick arrays. *)
Theorem innerPct_range (W : WeekState) (p : Z) :
  innerPct W = Some p -> (0 <= p <= 100)%Z.
Proof.
  unfold innerPct. destruct (innerTicks W) as [i|]; [|done].
  destruct (outerTicks W) as [o|]; [|done]. simpl.
  intros [= <-]. apply percentOf_range. lia.
Qed.

Lemma Math_round_mono (x y : Q) : (x <= y)%Q -> (Math_round x <= Math_round y)%Z.
Proof. intros Hxy. unfold Math_round. apply Qfloor_resp_le. lra. Qed.

Lemma SFltb_leb (x y : spec_float) : SFltb x y = true -> SFleb x y = true.
Proof. unfold SFltb, SFleb. by destruct (SFcompare x y) as [[]|]. Qed.

Lemma Math_min64_100 (y : number) :
  isNaN (Math_min64 100%float y) = true
  \/ (Math_min64 100%float y <=? 100)%float = true.
Proof.
  unfold Math_min64. change (isNaN 100%float) with false. cbn [orb].
  destruct (isNaN y); [by left|]. right.
  destruct (y <? 100)%float eqn:Hlt.
  - rewrite FloatAxioms.leb_spec. rewrite FloatAxioms.ltb_spec in Hlt.
    by apply SFltb_leb.
  - change (is_zero 100%float) with false. cbn [andb].
    by destruct (100 <? y)%float.
Qed.




(** X22.  Whatever numbers the week holds, the progress is never above 100:
    it is at most 100, or it is [NaN] (which the minutes [Infinity] and
    [-Infinity] of one week give). *)
Theorem innerProgress_at_most_100 (W : WeekState) :
  isNaN (innerProgress W) = true \/ (innerProgress W <=? 100)%float = true.
Proof. apply Math_min64_100. Qed.

Example innerProgress_nan_example (W : WeekState) :
  dailyInnerMinutes (metrics W) = [infinity; neg_infinity]%float ->
  isNaN (innerProgress W) = true.
Proof. intros H. unfold innerProgress, totalInnerMinutes. by rewrite H. Qed.

(** The same, on two of the example weeks. *)
Lemma inner_outer_partition_witness :
  ticksCount march4_slept = Some 1%nat /\
  exists i o, innerTicks march4_slept = Some i /\ outerTicks march4_slept = Some o /\
              (i + o)%nat = 1%nat.
Proof.
  split; [reflexivity|].
  apply (inner_outer_partition march4_slept 1). reflexivity.
Defined.

Lemma innerPct_range_witness :
  innerPct march4_slept = Some 100%Z /\ (0 <= 100 <= 100)%Z.
Proof.
  split; [reflexivity|].
  apply (innerPct_range march4_slept 100). reflexivity.
Defined.


(** ** More on the tick boxes *)

Lemma with_ticks_same (W : WeekState) : with_ticks W (ticks W) = W.
Proof. by destruct W. Qed.

Lemma tickCount_set_entry (arr : list bool) (d : nat) (b v : bool) :
  arr !! d = Some b ->
  (tickCount (<[ d := v ]> arr) + (if b then 1 else 0)
   = tickCount arr + (if v then 1 else 0))%nat.
Proof.
  revert d. induction arr as [|x arr IH]; intros d Hd; [done|].
  destruct d as [|d].
  - simpl in Hd. injection Hd as ->. unfold tickCount. simpl.
    destruct b, v; simpl; lia.
  - simpl in Hd. specialize (IH d Hd). unfold tickCount in *. simpl.
    destruct x; simpl; lia.
Qed.

Lemma ticks_set_for_set_entry (W W' : WeekState) (h : string) (arr arr' : list bool)
    (hs : list Habit) (x y : nat) :
  ticks W !! h = Some arr ->
  ticks W' = <[ h := arr' ]> (ticks W) ->
  (tickCount arr' + x = tickCount arr + y)%nat ->
  let k := length (List.filter (fun g => String.eqb (habit_id g) h) hs) in
  (ticks_set_for W' hs + k * x = ticks_set_for W hs + k * y)%nat.
Proof.
  intros Harr Hticks Hcount. induction hs as [|g hs IH]; [done|].
  rewrite !ticks_set_for_cons. cbn [List.filter].
  destruct (String.eqb (habit_id g) h) eqn:E; cbn [length] in *.
  - apply String.eqb_eq in E.
    assert (ticks_set W' g = tickCount arr') as ->.
    { unfold ticks_set. rewrite Hticks, E, lookup_insert_eq. simpl.
      by rewrite tickCount_count. }
    assert (ticks_set W g = tickCount arr) as ->.
    { unfold ticks_set. rewrite E, Harr. simpl. by rewrite tickCount_count. }
    lia.
  - apply String.eqb_neq in E.
    assert (ticks_set W' g = ticks_set W g) as ->.
    { unfold ticks_set. rewrite Hticks. by rewrite lookup_insert_ne. }
    lia.
Qed.

(** X5.  Setting a box moves the tick count by the difference between the new and
    the old value of the box, once for every enabled habit that carries the
    identifier: ticking an empty box of an enabled habit with a unique
    identifier adds exactly one, clearing a ticked one removes one, and
    setting a box to the value it has changes nothing. *)
Theorem setTick_ticksCount (W : WeekState) (h : string) (d : nat) (v b : bool)
    (arr : list bool) (t : nat) :
  ticks W !! h = Some arr ->
  arr !! d = Some b ->
  ticksCount W = Some t ->
  let k := length (List.filter (fun g => String.eqb (habit_id g) h) (enabledHabits W)) in
  exists W' t',
    setTick h d v W = Some W' /\
    ticksCount W' = Some t' /\
    (t' + k * (if b then 1 else 0) = t + k * (if v then 1 else 0))%nat.
Proof.
  intros Harr Hd Ht k.
  unfold setTick. rewrite Harr. simpl. rewrite imap_set_entry.
  eexists _, _. split; [reflexivity|].
  assert (Forall (fun g => is_Some (ticks W !! habit_id g)) (enabledHabits W)) as Hall.
  { apply tickSum_is_Some. unfold ticksCount in Ht. rewrite Ht. eauto. }
  unfold ticksCount in *. rewrite (tickSum_Some W _ Hall) in Ht. injection Ht as <-.
  split.
  - apply tickSum_Some. simpl. eapply Forall_impl; [exact Hall|].
    intros g [a Ha]. simpl.
    destruct (decide (h = habit_id g)) as [->|Hne].
    + rewrite lookup_insert_eq. eauto.
    + rewrite lookup_insert_ne by done. eauto.
  - simpl. unfold enabledHabits. simpl.
    apply (ticks_set_for_set_entry W _ h arr (<[ d := v ]> arr)); [done|done|].
    by apply tickCount_set_entry.
Qed.

(** The same, for the Wednesday box of "sleep" on the new week. *)
Lemma setTick_ticksCount_witness :
  ticks march4 !! "sleep" = Some (Array7 false) /\
  Array7 false !! 2%nat = Some false /\
  ticksCount march4 = Some 0%nat /\
  exists W', setTick "sleep" 2 true march4 = Some W' /\ ticksCount W' = Some 1%nat.
Proof.
  split; [reflexivity|]. split; [reflexivity|]. split; [reflexivity|].
  destruct (setTick_ticksCount march4 "sleep" 2 true false (Array7 false) 0
              eq_refl eq_refl eq_refl) as (W' & t' & Hset & Ht' & Hsum).
  exists W'. split; [exact Hset|]. rewrite Ht'. f_equal. simpl in Hsum. lia.
Defined.

(** X6.  What [setTick] does off the beaten track: it throws for a habit without
    an array, changes nothing for a day index past the end of the array, and
    setting the same box twice leaves the value set last. *)
Theorem setTick_edges (W : WeekState) (h : string) (d : nat) (v v2 : bool) :
  (ticks W !! h = None -> setTick h d v W = None) /\
  (forall arr, ticks W !! h = Some arr -> (length arr <= d)%nat ->
     setTick h d v W = Some W) /\
  (forall W1, setTick h d v W = Some W1 ->
     setTick h d v2 W1 = setTick h d v2 W).
Proof.
  split; [|split].
  - intros Hnone. unfold setTick. by rewrite Hnone.
  - intros arr Harr Hlen. unfold setTick. rewrite Harr. simpl.
    rewrite imap_set_entry, list_insert_ge by done.
    rewrite insert_id by done. by rewrite with_ticks_same.
  - intros W1 Hset. unfold setTick in *.
    destruct (ticks W !! h) as [arr|] eqn:Harr; [|done]. simpl in *.
    injection Hset as <-. simpl. rewrite lookup_insert_eq. simpl.
    rewrite !imap_set_entry, list_insert_insert_eq.
    unfold with_ticks. simpl. by rewrite insert_insert_eq.
Qed.


(** ** Renaming, enabling and tagging habits *)

Lemma with_habits_same (W : WeekState) : with_habits W (habits W) = W.
Proof. by destruct W. Qed.

Lemma updateHabit_absent (id : string) (f : Habit -> Habit) (W : WeekState) :
  forallb (fun h => negb (String.eqb (habit_id h) id)) (habits W) = true ->
  updateHabit id f W = W.
Proof.
  intros Habs. unfold updateHabit.
  assert (List.map (fun h => if String.eqb (habit_id h) id then f h else h) (habits W)
          = habits W) as ->; [|apply with_habits_same].
  induction (habits W) as [|h hs IH]; [done|]. simpl in *.
  apply andb_true_iff in Habs as [Hh Hhs]. apply negb_true_iff in Hh.
  rewrite Hh. by rewrite IH.
Qed.

Lemma updateHabit_twice (id : string) (f g : Habit -> Habit) (W : WeekState) :
  (forall h, habit_id (f h) = habit_id h) ->
  updateHabit id g (updateHabit id f W) = updateHabit id (fun h => g (f h)) W.
Proof.
  intros Hid. unfold updateHabit, with_habits, with_habits_ticks. simpl. f_equal.
  rewrite List.map_map. apply List.map_ext. intros h.
  destruct (String.eqb (habit_id h) id) eqn:E; [|by rewrite E].
  by rewrite Hid, E.
Qed.

(** X7.  [setHabitEnabled] switches exactly the habits that carry the identifier:
    the identifiers, names and kinds of all habits, the tick mapping and the
    other fields stay as they are, so the ticks of a disabled habit are kept;
    a week without such a habit is left as it is; and of two switches in a
    row the second decides. *)
Theorem setHabitEnabled_spec (W : WeekState) (id : string) (on on2 : bool) :
  let W' := setHabitEnabled id on W in
  length (habits W') = length (habits W) /\
  (forall i h, habits W !! i = Some h ->
     habits W' !! i
     = Some (if String.eqb (habit_id h) id
             then mkHabit (habit_id h) (habit_name h) on (kind h) else h)) /\
  ticks W' = ticks W /\
  other_fields_equal W W' /\
  (forallb (fun h => negb (String.eqb (habit_id h) id)) (habits W) = true -> W' = W) /\
  setHabitEnabled id on2 W' = setHabitEnabled id on2 W.
Proof.
  intros W'. unfold W', setHabitEnabled.
  split; [unfold updateHabit; simpl; apply List.length_map|].
  split.
  { intros i h Hi. unfold updateHabit. simpl.
    change (List.map ?f ?l) with (f <$> l). rewrite list_lookup_fmap, Hi. done. }
  split; [done|]. split; [by repeat split|].
  split; [apply updateHabit_absent|].
  by rewrite updateHabit_twice.
Qed.

Lemma enabledHabits_updateHabit (id : string) (f : Habit -> Habit) (W : WeekState) :
  (forall h, enabled (f h) = enabled h) ->
  enabledHabits (updateHabit id f W)
  = List.map (fun h => if String.eqb (habit_id h) id then f h else h) (enabledHabits W).
Proof.
  intros Hen. unfold enabledHabits, updateHabit. simpl.
  induction (habits W) as [|h hs IH]; [done|]. simpl.
  assert (enabled (if String.eqb (habit_id h) id then f h else h) = enabled h) as ->
    by (destruct (String.eqb (habit_id h) id); [apply Hen|done]).
  destruct (enabled h); simpl; by rewrite IH.
Qed.

Lemma tickSum_map (W W' : WeekState) (g : Habit -> Habit) (hs : list Habit) :
  ticks W' = ticks W ->
  (forall h, habit_id (g h) = habit_id h) ->
  tickSum W' (List.map g hs) = tickSum W hs.
Proof.
  intros Ht Hid. unfold tickSum. generalize (Some 0%nat).
  induction hs as [|h hs IH]; intros acc; [done|].
  simpl. rewrite IH. f_equal. by rewrite Ht, Hid.
Qed.

Lemma ofKind_map (k : HabitKind) (g : Habit -> Habit) (hs : list Habit) :
  (forall h, kind (g h) = kind h) ->
  ofKind k (List.map g hs) = List.map g (ofKind k hs).
Proof.
  intros Hk. unfold ofKind. induction hs as [|h hs IH]; [done|].
  simpl. rewrite Hk. destruct (kind_eqb (kind h) k); simpl; by rewrite IH.
Qed.

(** X8.  Renaming a habit changes no number the page derives from the week, and
    changing the kind of a habit does not change the habit score. *)
Theorem rename_retag_scores (W : WeekState) (id name : string) (k : HabitKind) :
  habitScore (setHabitName id name W) = habitScore W /\
  innerTicks (setHabitName id name W) = innerTicks W /\
  outerTicks (setHabitName id name W) = outerTicks W /\
  innerPct (setHabitName id name W) = innerPct W /\
  innerProgress (setHabitName id name W) = innerProgress W /\
  habitScore (setHabitKind id k W) = habitScore W.
Proof.
  assert (forall f, (forall h, habit_id (f h) = habit_id h) ->
                    (forall h, enabled (f h) = enabled h) ->
                    habitScore (updateHabit id f W) = habitScore W) as Hscore.
  { intros f Hid Hen. unfold habitScore, ticksCount, totalCells.
    rewrite enabledHabits_updateHabit by done.
    rewrite (tickSum_map W) by (try done; intros h; by destruct (String.eqb _ _)).
    by rewrite List.length_map. }
  assert (forall kd, tickSum (setHabitName id name W)
                        (ofKind kd (enabledHabits (setHabitName id name W)))
                     = tickSum W (ofKind kd (enabledHabits W))) as Hkind.
  { intros kd. unfold setHabitName. rewrite enabledHabits_updateHabit by done.
    rewrite ofKind_map by (intros h; by destruct (String.eqb _ _)).
    apply tickSum_map; [done|]. intros h. by destruct (String.eqb _ _). }
  split; [by apply Hscore|].
  split; [apply Hkind|]. split; [apply Hkind|].
  split; [unfold innerPct, innerTicks, outerTicks; by rewrite !Hkind|].
  split; [done|]. by apply Hscore.
Qed.

(** ** More on removing and adding habits *)




(** ** The identifier of a new habit *)

Lemma chars_append (a b : string) :
  list_ascii_of_string (a +:+ b) = (list_ascii_of_string a ++ list_ascii_of_string b)%list.
Proof. induction a as [|c a IH]; [done|]. simpl. by rewrite IH. Qed.

Lemma slug_chars (name : string) :
  list_ascii_of_string (slug name)
  = take 24 (List.filter is_slug_char
               (dash_spaces false (List.map toLowerCase (list_ascii_of_string name)))).
Proof. unfold slug. apply list_ascii_of_string_of_list_ascii. Qed.

Lemma length_chars (s : string) : length (list_ascii_of_string s) = String.length s.
Proof. induction s as [|c s IH]; [done|]. simpl. by rewrite IH. Qed.

(** X10.  The identifier made for a new habit is at most 24 lowercase letters,
    digits and dashes, then a dash, then the random digits; it has at most 25
    characters more than the digits. *)
Theorem newHabitId_shape (name rnd : string) :
  list_ascii_of_string (newHabitId name rnd)
  = (list_ascii_of_string (slug name) ++ "-"%char :: list_ascii_of_string rnd)%list /\
  Forall (fun c => is_slug_char c = true) (list_ascii_of_string (slug name)) /\
  (String.length (slug name) <= 24)%nat /\
  (String.length (newHabitId name rnd) <= 25 + String.length rnd)%nat.
Proof.
  assert (list_ascii_of_string (newHabitId name rnd)
          = (list_ascii_of_string (slug name) ++ "-"%char :: list_ascii_of_string rnd)%list)
    as Hchars.
  { unfold newHabitId. by rewrite !chars_append. }
  assert (String.length (slug name) <= 24)%nat as Hlen.
  { rewrite <- length_chars, slug_chars, length_take. lia. }
  split; [exact Hchars|]. split; [|split; [exact Hlen|]].
  - rewrite slug_chars. apply Forall_take. apply List.Forall_forall.
    intros c Hc. apply List.filter_In in Hc. tauto.
  - rewrite <- !length_chars, Hchars, length_app. simpl.
    rewrite !length_chars. lia.
Qed.

Lemma newHabitId_has_dash (name rnd : string) :
  existsb (Ascii.eqb "-") (list_ascii_of_string (newHabitId name rnd)) = true.
Proof.
  unfold newHabitId. rewrite !chars_append, !existsb_app. simpl.
  by rewrite orb_true_r.
Qed.

Lemma newHabitId_not_default (name rnd weekStartISO now : string) :
  forallb (fun h => negb (String.eqb (habit_id h) (newHabitId name rnd)))
          (habits (newWeekState weekStartISO now)) = true.
Proof.
  apply forallb_forall. intros h Hin.
  apply negb_true_iff, String.eqb_neq. intros Heq.
  pose proof (newHabitId_has_dash name rnd) as Hdash. rewrite <- Heq in Hdash.
  simpl in Hin. repeat (destruct Hin as [<-|Hin]; [discriminate Hdash|]). done.
Qed.

Lemma add_then_remove_unused (W : WeekState) (name rnd : string) :
  name ≠ "" ->
  forallb (fun h => negb (String.eqb (habit_id h) (newHabitId name rnd))) (habits W) = true ->
  ticks W !! newHabitId name rnd = None ->
  removeHabit true (newHabitId name rnd) (addHabit (Some name) rnd W) = W.
Proof.
  intros Hname Hfresh Hnone.
  unfold addHabit. apply String.eqb_neq in Hname. rewrite Hname.
  unfold removeHabit. simpl.
  rewrite filter_same_id by done. rewrite filter_other_ids by done.
  rewrite delete_insert_eq, delete_id by done.
  by destruct W.
Qed.

(** X11.  On a new week the identifier made for a habit never meets one of the
    default habits, whatever the name and the random digits: adding a habit
    with a name that is not empty and removing it again gives back the new
    week, field by field. *)
Theorem add_then_remove_new_week (weekStartISO now name rnd : string) :
  name ≠ "" ->
  let W := newWeekState weekStartISO now in
  forallb (fun h => negb (String.eqb (habit_id h) (newHabitId name rnd))) (habits W) = true /\
  ticks W !! newHabitId name rnd = None /\
  removeHabit true (newHabitId name rnd) (addHabit (Some name) rnd W) = W.
Proof.
  intros Hname W.
  pose proof (newHabitId_not_default name rnd weekStartISO now) as Hfresh.
  assert (ticks W !! newHabitId name rnd = None) as Hnone.
  { apply Object_fromEntries_other. apply Forall_forall. intros e He.
    apply list_elem_of_In, List.in_map_iff in He as (h & <- & Hin).
    pose proof (proj1 (forallb_forall _ _) Hfresh h Hin) as Hh.
    apply negb_true_iff, String.eqb_neq in Hh. exact Hh. }
  split; [exact Hfresh|]. split; [exact Hnone|].
  by apply add_then_remove_unused.
Qed.

(** The same for the habit "Run". *)
Lemma add_then_remove_new_week_witness :
  "Run" ≠ "" /\
  removeHabit true (newHabitId "Run" "1234") (addHabit (Some "Run") "1234" march4) = march4.
Proof.
  split; [discriminate|].
  apply (add_then_remove_new_week "2024-03-04" "2024-03-04T08:00:00.000Z" "Run" "1234").
  discriminate.
Defined.


(** ** Custom sections *)

Lemma with_sections_same (W : WeekState) : with_sections W (sections W) = W.
Proof. by destruct W. Qed.

Lemma filter_other_sections (id : string) (ss : list Section) :
  forallb (fun s => negb (String.eqb (section_id s) id)) ss = true ->
  List.filter (fun s => negb (String.eqb (section_id s) id)) ss = ss.
Proof.
  induction ss as [|s ss IH]; [done|]. simpl.
  intros H. apply andb_true_iff in H as [Hs Hss]. rewrite Hs. by rewrite IH.
Qed.

Lemma addSection_sections (type : SectionType) (answer : option string)
    (rnd rndItem : string) (W : WeekState) :
  exists s,
    sections (addSection type answer rnd rndItem W) = (sections W ++ [s])%list /\
    section_id s = "sec-" +:+ rnd /\ section_type s = type /\
    section_title s = match answer with
                      | Some t => if String.eqb t "" then defaultTitle type else t
                      | None => defaultTitle type
                      end.
Proof. destruct type; eexists; (split; [reflexivity|]); by repeat split. Qed.

(** X12.  [addSection] adds one section of the kind asked for at the end of the
    list, also when the prompt is cancelled or left empty (the title is then
    the default one of the kind), and changes neither the habits nor the
    ticks nor any number derived from the week. *)
Theorem addSection_spec (type : SectionType) (answer : option string)
    (rnd rndItem : string) (W : WeekState) :
  let W' := addSection type answer rnd rndItem W in
  (exists s,
     sections W' = (sections W ++ [s])%list /\
     section_id s = "sec-" +:+ rnd /\ section_type s = type /\
     (answer = None \/ answer = Some "" -> section_title s = defaultTitle type) /\
     (forall t, answer = Some t -> t ≠ "" -> section_title s = t)) /\
  habits W' = habits W /\ ticks W' = ticks W /\
  habitScore W' = habitScore W /\ innerPct W' = innerPct W /\
  innerProgress W' = innerProgress W.
Proof.
  intros W'. split; [|by repeat split].
  destruct (addSection_sections type answer rnd rndItem W) as (s & Hs & Hid & Hty & Htitle).
  exists s. split; [exact Hs|]. split; [exact Hid|]. split; [exact Hty|]. split.
  - intros [->| ->]; exact Htitle.
  - intros t -> Ht. apply String.eqb_neq in Ht. by rewrite Ht in Htitle.
Qed.


(** X14.  Adding a section and removing it again gives back the week when the
    identifier made for it is not yet the identifier of a section. *)
Theorem addSection_removeSection (W : WeekState) (type : SectionType)
    (answer : option string) (rnd rndItem : string) :
  forallb (fun s => negb (String.eqb (section_id s) ("sec-" +:+ rnd))) (sections W) = true ->
  removeSection true ("sec-" +:+ rnd) (addSection type answer rnd rndItem W) = W.
Proof.
  intros Hfresh.
  destruct (addSection_sections type answer rnd rndItem W) as (s & Hs & Hid & _).
  unfold removeSection, with_sections. rewrite Hs, List.filter_app. simpl.
  rewrite Hid, String.eqb_refl. simpl.
  rewrite app_nil_r, filter_other_sections by done. by destruct W.
Qed.

(** The same on the new week, which has no section. *)
Lemma addSection_removeSection_witness :
  forallb (fun s => negb (String.eqb (section_id s) ("sec-" +:+ "123456")))
          (sections march4) = true /\
  removeSection true "sec-123456" (addSection notes_type None "123456" "7890" march4)
  = march4.
Proof.
  split; [reflexivity|].
  apply (addSection_removeSection march4 notes_type None "123456" "7890"). reflexivity.
Defined.


(** ** What is stored and what a reload shows *)

Section Stored.

Context {text : Type} `{!JSON text}.

Lemma useLocalState_init_written (ls : gmap string text) (key : string)
    (v initial : value) :
  ls !! key = Some (JSON_stringify v) ->
  useLocalState_init ls key initial = written v.
Proof.
  intros Hls. unfold useLocalState_init. rewrite Hls.
  rewrite (parse_nonempty _ _ (parse_stringify v)). by rewrite parse_stringify.
Qed.

Lemma persist_week_synced (w : World) : synced (persist_week w).
Proof. unfold synced, persist_week. simpl. apply lookup_insert_eq. Qed.

(** When storage holds the week shown, a reload starts with that week as
    JSON keeps it, which is the week itself when its numbers are numbers of
    JSON. *)
Lemma loadOrCreate_synced (w : World) (now : string) :
  synced w ->
  let shown := loadOrCreate (localStorage w) (weekStartISO w) now in
  shown = written (week_value (week w)) /\
  (json_numbers (week w) = true -> shown = week_value (week w)).
Proof.
  intros Hw shown.
  assert (shown = written (week_value (week w))) as E
    by (by apply useLocalState_init_written).
  split; [exact E|]. intros Hnum. by rewrite E, written_week_value.
Qed.

(** X15.  What the hook writes it reads back: after any [setWeek], a reload of the
    page starts with the week just set, whatever was stored before and
    whatever the default would be (a number JSON has no text for comes back
    as [null], the negative zero as 0); every other entry of local storage
    is left as it was. *)
Theorem setWeek_reload (f : WeekState -> WeekState) (w : World) (now : string) :
  let w' := setWeek f w in
  let shown := loadOrCreate (localStorage w') (weekStartISO w') now in
  weekStartISO w' = weekStartISO w /\
  week w' = f (week w) /\
  shown = written (week_value (f (week w))) /\
  (json_numbers (f (week w)) = true -> shown = week_value (f (week w))) /\
  (forall key, key ≠ storageKey (weekStartISO w) ->
     localStorage w' !! key = localStorage w !! key).
Proof.
  intros w' shown. split; [done|]. split; [done|].
  assert (synced w') as Hs
    by apply (persist_week_synced (mkWorld (weekStartISO w) (f (week w)) (localStorage w))).
  destruct (loadOrCreate_synced w' now Hs) as [H1 H2].
  split; [exact H1|]. split; [exact H2|].
  - intros key Hkey. unfold w', setWeek, persist_week. simpl.
    by rewrite lookup_insert_ne.
Qed.

Lemma sync_weekStart_synced (w : World) : synced w -> synced (sync_weekStart w).
Proof.
  intros Hs. unfold sync_weekStart.
  destruct (String.eqb (weekStart (meta (week w))) (weekStartISO w)); [done|].
  apply persist_week_synced.
Qed.

Lemma sync_weekStart_frame (w : World) (key : string) :
  key ≠ storageKey (weekStartISO w) ->
  localStorage (sync_weekStart w) !! key = localStorage w !! key.
Proof.
  intros Hkey. unfold sync_weekStart.
  destruct (String.eqb (weekStart (meta (week w))) (weekStartISO w)); [done|].
  unfold setWeek, persist_week. simpl. by rewrite lookup_insert_ne.
Qed.

Lemma sync_weekStart_pointer (w : World) :
  weekStartISO (sync_weekStart w) = weekStartISO w.
Proof.
  unfold sync_weekStart.
  by destruct (String.eqb (weekStart (meta (week w))) (weekStartISO w)).
Qed.

(** X16.  [shiftWeek] writes to two entries of local storage at most, the pointer
    and the week it moves to: every other stored week is left as it is, the
    week it leaves included.  After it, storage holds the week shown under
    the key shown when it did before, so that a reload shows the same
    week, as JSON keeps it, and the same pointer. *)
Theorem shiftWeek_storage (delta : Z) (now : string) (w w' : World) :
  shiftWeek delta now w = Some w' ->
  (forall key, key ≠ storageKey (weekStartISO w') -> key ≠ "inner-week-start" ->
     localStorage w' !! key = localStorage w !! key) /\
  (weekStartISO w' ≠ weekStartISO w ->
     localStorage w' !! storageKey (weekStartISO w) = localStorage w !! storageKey (weekStartISO w)) /\
  (synced w -> synced w') /\
  (synced w ->
     forall now',
       let shown := loadOrCreate (localStorage w') (weekStartISO w') now' in
       shown = written (week_value (week w')) /\
       (json_numbers (week w') = true -> shown = week_value (week w'))) /\
  (weekStartISO w' ≠ weekStartISO w ->
     forall initial, reloadPointer (localStorage w') initial = Str (weekStartISO w')).
Proof.
  unfold shiftWeek. destruct (Date_parse (weekStartISO w)) as [start|]; [|done].
  simpl. set (nextISO := formatISO (start + delta * 7)).
  set (existing := stored (localStorage w) (storageKey nextISO)).
  set (next := mkWorld nextISO
                 (if existing then week w else newWeekState nextISO now) (localStorage w)).
  intros [= <-].
  assert (forall key, key ≠ storageKey nextISO -> key ≠ "inner-week-start" ->
            localStorage (sync_weekStart (persist_week (persist_pointer next))) !! key
            = localStorage w !! key) as Hmoved.
  { intros key Hkey Hptr. rewrite sync_weekStart_frame by done.
    unfold persist_week, persist_pointer. simpl.
    by rewrite !lookup_insert_ne. }
  assert (synced (sync_weekStart (persist_week (persist_pointer next)))) as Hsync
    by apply sync_weekStart_synced, persist_week_synced.
  destruct (String.eqb nextISO (weekStartISO w)) eqn:Emoved; simpl.
  - apply String.eqb_eq in Emoved.
    assert (forall key, key ≠ storageKey nextISO -> 
              localStorage (if existing then next else persist_week next) !! key
              = localStorage w !! key) as Hframe.
    { intros key Hkey. destruct existing; [done|].
      unfold persist_week. simpl. by rewrite lookup_insert_ne. }
    assert (synced w -> synced (if existing then next else persist_week next)) as Hs.
    { intros Hw. destruct existing eqn:E; [|apply persist_week_synced].
      unfold synced, next in *. simpl. by rewrite Emoved. }
    assert (weekStartISO (if existing then next else persist_week next) = nextISO) as Hp
      by (by destruct existing).
    rewrite Hp.
    split; [intros key Hkey _; by apply Hframe|].
    split; [congruence|]. split; [exact Hs|].
    split; [|congruence].
    intros Hw now'. rewrite <- Hp. apply loadOrCreate_synced, Hs, Hw.
  - apply String.eqb_neq in Emoved.
    rewrite sync_weekStart_pointer. simpl.
    split; [exact Hmoved|].
    split.
    { intros _. apply Hmoved; [|apply storageKey_not_pointer].
      intros Heq. apply storageKey_inj in Heq. congruence. }
    split; [intros _; exact Hsync|].
    split.
    { intros _ now'.
      pose proof (loadOrCreate_synced _ now' Hsync) as Hs.
      by rewrite sync_weekStart_pointer in Hs. }
    intros _ initial. unfold reloadPointer.
    change (Str nextISO) with (written (Str nextISO)).
    apply useLocalState_init_written.
    rewrite sync_weekStart_frame
      by (simpl; intros Heq; symmetry in Heq; by apply storageKey_not_pointer in Heq).
    unfold persist_week, persist_pointer. simpl.
    rewrite lookup_insert_ne by apply storageKey_not_pointer.
    apply lookup_insert_eq.
Qed.

(** X17.  [resetWeek] asks before it resets unless told not to ask; when the
    question is answered with no, nothing changes; otherwise the week shown
    becomes the new default week of the same week start, with every box
    clear and a habit score of 0, local storage holds it, and no other
    entry of local storage is touched. *)
Theorem resetWeek_spec (confirmText answer : bool) (now : string) (w : World) :
  let w' := resetWeek confirmText answer now w in
  (confirmText = true -> answer = false -> w' = w) /\
  (confirmText = false \/ answer = true ->
     weekStartISO w' = weekStartISO w /\
     week w' = newWeekState (weekStartISO w) now /\
     habitScore (week w') = Some 0%Z /\
     ticks_ok (week w') = true /\
     synced w' /\
     (forall key, key ≠ storageKey (weekStartISO w) ->
        localStorage w' !! key = localStorage w !! key)).
Proof.
  intros w'. unfold w', resetWeek. split.
  - by intros -> ->.
  - intros Hreset.
    assert (negb confirmText || answer = true) as ->
      by (destruct Hreset as [-> | ->]; [done|by destruct confirmText]).
    split; [done|]. split; [done|]. split; [done|]. split; [done|].
    split; [apply persist_week_synced|].
    intros key Hkey. unfold setWeek, persist_week. simpl. by rewrite lookup_insert_ne.
Qed.

End Stored.




(** ** Week starts as dates *)

Section Calendar.

#[local] Open Scope Z_scope.

Lemma all_from_spec (f : Z -> bool) (bits : nat) (base : Z) :
  all_from f bits base = true ->
  forall x, base <= x < base + 2 ^ Z.of_nat bits -> f x = true.
Proof.
  revert base. induction bits as [|b IH]; intros base H x Hx.
  - simpl in *. assert (x = base) as -> by lia. done.
  - cbn [all_from] in H. apply andb_true_iff in H as [H1 H2].
    rewrite Nat2Z.inj_succ, Z.pow_succ_r in Hx by lia.
    destruct (Z_lt_ge_dec x (base + 2 ^ Z.of_nat b)).
    + apply (IH base H1). lia.
    + apply (IH _ H2). lia.
Qed.

Lemma era_checked :
  all_from (fun doe => (146097 <=? doe) || era_ok doe) 18 0 = true.
Proof. vm_cast_no_check (eq_refl true). Qed.

Lemma era_ok_all (doe : Z) : 0 <= doe < 146097 -> era_ok doe = true.
Proof.
  intros H.
  pose proof (all_from_spec _ _ _ era_checked doe) as Hc. simpl in Hc.
  destruct (146097 <=? doe) eqn:E; [apply Z.leb_le in E; lia|].
  apply Hc. lia.
Qed.

Lemma is_leap_era (y era : Z) : is_leap (y + era * 400) = is_leap y.
Proof.
  unfold is_leap.
  replace ((y + era * 400) mod 4) with (y mod 4)
    by (replace (y + era * 400) with (y + (era * 100) * 4) by lia; by rewrite Z.mod_add).
  replace ((y + era * 400) mod 100) with (y mod 100)
    by (replace (y + era * 400) with (y + (era * 4) * 100) by lia; by rewrite Z.mod_add).
  by rewrite Z.mod_add.
Qed.

Lemma days_in_month_era (y era m : Z) :
  days_in_month (y + era * 400) m = days_in_month y m.
Proof. unfold days_in_month. by rewrite is_leap_era. Qed.

Lemma civil_from_days_era (z : Z) :
  let era := (z + 719468) / 146097 in
  let doe := (z + 719468) mod 146097 in
  civil_from_days z =
  let '(yoe, m, d) := civil_in_era doe in
  ((if m <=? 2 then yoe + 1 else yoe) + era * 400, m, d).
Proof.
  intros era doe. unfold civil_from_days, civil_in_era.
  replace (z + 719468 - (z + 719468) / 146097 * 146097) with doe
    by (unfold doe; rewrite Z.mod_eq by lia; lia).
  cbv zeta. fold era.
  set (yoe := (doe - doe / 1460 + doe / 36524 - doe / 146096) / 365).
  set (doy := doe - (365 * yoe + yoe / 4 - yoe / 100)).
  set (mp := (5 * doy + 2) / 153).
  destruct ((if mp <? 10 then mp + 3 else mp - 9) <=? 2); f_equal; f_equal; lia.
Qed.

Lemma days_from_civil_era (yoe era m d : Z) :
  0 <= yoe <= 399 ->
  days_from_civil ((if m <=? 2 then yoe + 1 else yoe) + era * 400) m d
  = era * 146097 + day_in_era yoe m d - 719468.
Proof.
  intros Hyoe. unfold days_from_civil, day_in_era.
  assert ((if m <=? 2
           then (if m <=? 2 then yoe + 1 else yoe) + era * 400 - 1
           else (if m <=? 2 then yoe + 1 else yoe) + era * 400) = yoe + era * 400) as ->
    by (destruct (m <=? 2); lia).
  assert ((yoe + era * 400) / 400 = era) as ->
    by (rewrite Z.div_add by lia; rewrite Z.div_small by lia; lia).
  cbv zeta. replace (yoe + era * 400 - era * 400) with yoe by lia. lia.
Qed.

Lemma civil_roundtrip (z : Z) :
  let '(y, m, d) := civil_from_days z in
  days_from_civil y m d = z /\ 1 <= m <= 12 /\ 1 <= d <= days_in_month y m.
Proof.
  rewrite civil_from_days_era.
  pose proof (Z.mod_pos_bound (z + 719468) 146097 ltac:(lia)) as Hdoe.
  pose proof (era_ok_all _ Hdoe) as Hok. unfold era_ok in Hok.
  destruct (civil_in_era ((z + 719468) mod 146097)) as [[yoe m] d].
  repeat (apply andb_true_iff in Hok as [Hok ?]).
  rewrite days_from_civil_era by lia. rewrite days_in_month_era.
  pose proof (Z.div_mod (z + 719468) 146097 ltac:(lia)). lia.
Qed.

Lemma digit_of_digit_char (n : Z) : digit_of (digit_char n) = Some (n mod 10).
Proof.
  unfold digit_char.
  pose proof (Z.mod_pos_bound n 10 ltac:(lia)) as Hr.
  generalize dependent (n mod 10). intros r Hr.
  assert (r = 0 \/ r = 1 \/ r = 2 \/ r = 3 \/ r = 4 \/ r = 5 \/ r = 6 \/ r = 7 \/
          r = 8 \/ r = 9) as Hcases by lia.
  repeat (destruct Hcases as [->|Hcases]; [reflexivity|]). by subst.
Qed.

Lemma number_of_2 (n : Z) :
  0 <= n <= 99 -> number_of [digit_char (n / 10); digit_char n] = Some n.
Proof.
  intros Hn. unfold number_of. cbn [foldl].
  rewrite !digit_of_digit_char. cbn [mbind option_bind].
  f_equal. rewrite (Z.mod_small (n / 10)) by (split; [apply Z.div_pos|apply Z.div_lt_upper_bound]; lia).
  pose proof (Z.div_mod n 10 ltac:(lia)). lia.
Qed.

Lemma number_of_4 (n : Z) :
  0 <= n <= 9999 ->
  number_of [digit_char (n / 10 / 10 / 10); digit_char (n / 10 / 10);
             digit_char (n / 10); digit_char n] = Some n.
Proof.
  intros Hn. unfold number_of. cbn [foldl].
  rewrite !digit_of_digit_char. cbn [mbind option_bind].
  f_equal.
  pose proof (Z.div_mod n 10 ltac:(lia)).
  pose proof (Z.div_mod (n / 10) 10 ltac:(lia)).
  pose proof (Z.div_mod (n / 10 / 10) 10 ltac:(lia)).
  pose proof (Z.mod_pos_bound n 10 ltac:(lia)).
  pose proof (Z.mod_pos_bound (n / 10) 10 ltac:(lia)).
  pose proof (Z.mod_pos_bound (n / 10 / 10) 10 ltac:(lia)).
  rewrite (Z.mod_small (n / 10 / 10 / 10)) by lia.
  lia.
Qed.

Lemma Date_parse_formatISO (z : Z) :
  0 <= (civil_from_days z).1.1 <= 9999 ->
  Date_parse (formatISO z) = Some z.
Proof.
  intros Hy. unfold formatISO.
  pose proof (civil_roundtrip z) as Hrt.
  destruct (civil_from_days z) as [[y m] d]. simpl in Hy.
  destruct Hrt as (Hz & Hm & Hd).
  assert (d <= 31) by (unfold days_in_month in Hd; repeat case_match; lia).
  replace ((0 <=? y) && (y <=? 9999)) with true by (symmetry; apply andb_true_iff; lia).
  unfold Date_parse.
  cbv [String.append padded list_ascii_of_string].
  rewrite number_of_4 by lia. rewrite !number_of_2 by lia.
  cbn [mbind option_bind].
  replace ((1 <=? m) && (m <=? 12) && (1 <=? d) && (d <=? days_in_month y m)) with true.
  - by rewrite Hz.
  - symmetry. repeat (apply andb_true_iff; split); lia.
Qed.

(** X18.  The string [formatISO] writes for a day is read back by [new Date] as
    that day, for every day of the years 0 to 9999, so no two such days share
    a string, or a storage key. *)
Theorem formatISO_readable (day : Z) :
  0 <= year_of day <= 9999 ->
  Date_parse (formatISO day) = Some day /\
  (forall day', 0 <= year_of day' <= 9999 ->
     storageKey (formatISO day') = storageKey (formatISO day) -> day' = day).
Proof.
  intros Hy. split; [by apply Date_parse_formatISO|].
  intros day' Hy' Hkey. apply storageKey_inj in Hkey.
  pose proof (Date_parse_formatISO day' Hy') as H'. rewrite Hkey in H'.
  rewrite (Date_parse_formatISO day Hy) in H'. congruence.
Qed.

End Calendar.

(** The same for 4 March 2024. *)
Lemma formatISO_readable_witness :
  (0 <= year_of 19786 <= 9999)%Z /\ Date_parse (formatISO 19786) = Some 19786%Z.
Proof.
  assert (0 <= year_of 19786 <= 9999)%Z as Hy by (vm_compute; split; discriminate).
  split; [exact Hy|]. apply (formatISO_readable 19786 Hy).
Defined.

Section Pointer.

Context {text : Type} `{!JSON text}.

#[local] Open Scope Z_scope.

Lemma shiftWeek_pointer_gen (delta : Z) (now : string) (w : World) (start : Z) :
  Date_parse (weekStartISO w) = Some start ->
  exists w', shiftWeek delta now w = Some w' /\
             weekStartISO w' = formatISO (start + delta * 7).
Proof.
  intros Hparse. unfold shiftWeek. rewrite Hparse. simpl.
  eexists. split; [reflexivity|].
  destruct (negb _); [by rewrite sync_weekStart_pointer|].
  by destruct (stored _ _).
Qed.

(** X19.  From a pointer written by [formatISO], [shiftWeek(delta)] moves the
    pointer by exactly [7 * delta] days, and [shiftWeek(-delta)] brings it
    back to the string it was, as long as the years stay within 0 to 9999
    (on a host whose offset from UTC does not change in between). *)
Theorem shiftWeek_pointer (delta : Z) (now now' : string) (w : World) (day : Z) :
  weekStartISO w = formatISO day ->
  0 <= year_of day <= 9999 ->
  0 <= year_of (day + delta * 7) <= 9999 ->
  exists w1 w2,
    shiftWeek delta now w = Some w1 /\
    weekStartISO w1 = formatISO (day + delta * 7) /\
    Date_parse (weekStartISO w1) = Some (day + delta * 7) /\
    shiftWeek (- delta) now' w1 = Some w2 /\
    weekStartISO w2 = weekStartISO w.
Proof.
  intros Hptr Hy Hy1.
  destruct (shiftWeek_pointer_gen delta now w day) as (w1 & Hw1 & Hp1).
  { rewrite Hptr. by apply Date_parse_formatISO. }
  assert (Date_parse (weekStartISO w1) = Some (day + delta * 7)) as Hparse1
    by (rewrite Hp1; by apply Date_parse_formatISO).
  destruct (shiftWeek_pointer_gen (- delta) now' w1 _ Hparse1) as (w2 & Hw2 & Hp2).
  exists w1, w2. repeat split; try done.
  rewrite Hp2, Hptr. f_equal. lia.
Qed.

End Pointer.

(** The same for the move to the next week from a page that has stored
    nothing yet. *)
Lemma shiftWeek_storage_witness :
  exists w' : World (text := document),
    shiftWeek 1 tuesday_9h00 (mkWorld "2024-03-04" march4 ∅) = Some w' /\
    localStorage w' !! "inner-theme-dark" = None.
Proof.
  destruct (shiftWeek_pointer_gen 1 tuesday_9h00
              (mkWorld (text := document) "2024-03-04" march4 ∅) 19786 eq_refl)
    as (w' & Hshift & Hptr).
  exists w'. split; [exact Hshift|].
  destruct (shiftWeek_storage 1 tuesday_9h00 _ w' Hshift) as (Hframe & _).
  rewrite Hframe; [reflexivity| |discriminate].
  rewrite Hptr. discriminate.
Defined.

(** The same for the example page and one week forth and back. *)
Lemma shiftWeek_pointer_witness :
  weekStartISO page_march4_slept = formatISO 19786 /\
  exists w1 w2 : World (text := document),
    shiftWeek 1 tuesday_9h00 page_march4_slept = Some w1 /\
    shiftWeek (-1) tuesday_9h05 w1 = Some w2 /\
    weekStartISO w2 = "2024-03-04".
Proof.
  split; [reflexivity|].
  destruct (shiftWeek_pointer 1 tuesday_9h00 tuesday_9h05 page_march4_slept 19786)
    as (w1 & w2 & H1 & _ & _ & H2 & Hp).
  - reflexivity.
  - vm_compute. split; discriminate.
  - vm_compute. split; discriminate.
  - exists w1, w2. split; [exact H1|]. split; [exact H2|exact Hp].
Defined.


(** ** The week the page opens on *)

Section FirstWeek.

#[local] Open Scope Z_scope.

Lemma Day_days (k r : Z) : 0 <= r < msPerDay -> Day (k * msPerDay + r) = k.
Proof.
  intros Hr. unfold Day, msPerDay in *.
  rewrite Z.add_comm, Z.div_add by lia. rewrite Z.div_small by lia. lia.
Qed.

Lemma mondayOfWeek_local (offset now : Z) :
  let today := Day (LocalTime offset now) in
  let monday := today - (WeekDay (LocalTime offset now) + 6) mod 7 in
  LocalTime offset (mondayOfWeek offset now) = monday * msPerDay.
Proof.
  intros today monday. unfold mondayOfWeek, LocalTime, UTC.
  set (lt := now + offset * 60000).
  set (day := (WeekDay lt + 6) mod 7).
  assert (Day (lt - day * msPerDay) = monday) as ->; [|lia].
  unfold monday, today, LocalTime. fold lt. fold day.
  pose proof (Z.div_mod lt msPerDay ltac:(unfold msPerDay; lia)) as Hdm.
  pose proof (Z.mod_pos_bound lt msPerDay ltac:(unfold msPerDay; lia)) as Hr.
  replace (lt - day * msPerDay)
    with ((lt / msPerDay - day) * msPerDay + lt mod msPerDay) by lia.
  by rewrite Day_days.
Qed.

(** X20.  [mondayOfWeek] is local midnight of the Monday on or before the local
    day.  [formatISO] then writes the UTC date of that instant: the date of
    that Monday on a host at or behind UTC, and the date of the Sunday before
    it on a host ahead of UTC. *)
Theorem mondayOfWeek_spec (offset now : Z) :
  let today := Day (LocalTime offset now) in
  let start := LocalTime offset (mondayOfWeek offset now) in
  start = Day start * msPerDay /\
  WeekDay start = 1 /\
  today - 6 <= Day start <= today /\
  (-1440 < offset <= 0 ->
     initialWeekStart offset now = formatISO (Day start)) /\
  (0 < offset <= 1440 ->
     initialWeekStart offset now = formatISO (Day start - 1) /\
     (Day start - 1 + 4) mod 7 = 0).
Proof.
  intros today start.
  pose proof (mondayOfWeek_local offset now) as Hlocal. cbv zeta in Hlocal.
  fold start in Hlocal. fold today in Hlocal.
  set (wd := WeekDay (LocalTime offset now)) in *.
  assert (0 <= wd < 7) as Hwd by (apply Z.mod_pos_bound; lia).
  assert (0 <= (wd + 6) mod 7 < 7) as Hoff by (apply Z.mod_pos_bound; lia).
  assert (Day start = today - (wd + 6) mod 7) as Hday.
  { rewrite Hlocal. replace (_ * msPerDay) with ((today - (wd + 6) mod 7) * msPerDay + 0) by lia.
    apply Day_days. unfold msPerDay. lia. }
  assert (WeekDay start = 1) as Hmonday.
  { unfold WeekDay. rewrite Hday. unfold wd, WeekDay. fold today.
    Z.div_mod_to_equations. lia. }
  split; [rewrite Hday; exact Hlocal|]. split; [exact Hmonday|].
  split; [lia|].
  assert (mondayOfWeek offset now = Day start * msPerDay - offset * 60000) as Hutc.
  { unfold start, LocalTime in *. rewrite Hday. lia. }
  unfold initialWeekStart, formatISO_at. rewrite Hutc.
  split.
  - intros Hoffs. f_equal.
    replace (Day start * msPerDay - offset * 60000)
      with (Day start * msPerDay + (- offset * 60000)) by lia.
    apply Day_days. unfold msPerDay. lia.
  - intros Hoffs. split.
    + f_equal.
      replace (Day start * msPerDay - offset * 60000)
        with ((Day start - 1) * msPerDay + (msPerDay - offset * 60000)) by lia.
      apply Day_days. unfold msPerDay. lia.
    + unfold WeekDay in Hmonday. Z.div_mod_to_equations. lia.
Qed.

End FirstWeek.

Example initialWeekStart_example :
  (* Tuesday 5 March 2024, 09:00 UTC *)
  initialWeekStart 0 1709629200000 = "2024-03-04" /\
  (* the same instant in New York (UTC-5) and in Berlin (UTC+1) *)
  initialWeekStart (-300) 1709629200000 = "2024-03-04" /\
  initialWeekStart 60 1709629200000 = "2024-03-03".
Proof. repeat split. Qed.


(** ** The week shown after a move *)

Section Shown.

Context {text : Type} `{!JSON text}.

(** X21.  [shiftWeek] never reads a stored week.  When local storage has nothing
    under the key of the week it moves to, the week shown afterwards is the
    new default week of that date; when it has, the week shown stays the one
    shown before, with the new week start written into it, and this week is
    what is stored under the key afterwards, in place of the entry that was
    there. *)
Theorem shiftWeek_week_shown (delta : Z) (now : string) (w : World) (start : Z) :
  Date_parse (weekStartISO w) = Some start ->
  let nextISO := formatISO (start + delta * 7) in
  nextISO ≠ weekStartISO w ->
  exists w',
    shiftWeek delta now w = Some w' /\
    weekStartISO w' = nextISO /\
    (stored (localStorage w) (storageKey nextISO) = false ->
       week w' = newWeekState nextISO now) /\
    (stored (localStorage w) (storageKey nextISO) = true ->
       week w' = with_weekStart (week w) nextISO) /\
    localStorage w' !! storageKey nextISO = Some (JSON_stringify (week_value (week w'))).
Proof.
  intros Hparse nextISO Hmoved.
  destruct (stored (localStorage w) (storageKey nextISO)) eqn:Hstored.
  - destruct (shiftWeek_keeps_shown_week delta now w start Hparse Hmoved Hstored)
      as (w' & Hshift & Hptr & Hweek & Hls).
    exists w'. split; [exact Hshift|]. split; [exact Hptr|].
    split; [done|]. split; [done|]. by rewrite Hweek.
  - unfold shiftWeek. rewrite Hparse. simpl. fold nextISO. rewrite Hstored.
    apply String.eqb_neq in Hmoved. rewrite Hmoved. simpl.
    eexists. split; [reflexivity|].
    unfold sync_weekStart. simpl. rewrite String.eqb_refl. simpl.
    split; [done|]. split; [done|]. split; [done|]. apply lookup_insert_eq.
Qed.

End Shown.

(** The same for the move to the next week from a page that has stored
    nothing yet. *)
Lemma shiftWeek_week_shown_witness :
  Date_parse "2024-03-04" = Some 19786%Z /\
  exists w' : World (text := document),
    shiftWeek 1 tuesday_9h00 (mkWorld "2024-03-04" march4 ∅) = Some w' /\
    week w' = newWeekState "2024-03-11" tuesday_9h00.
Proof.
  split; [reflexivity|].
  destruct (shiftWeek_week_shown 1 tuesday_9h00
              (mkWorld (text := document) "2024-03-04" march4 ∅) 19786 eq_refl)
    as (w' & Hshift & _ & Hnew & _); [vm_compute; discriminate|].
  exists w'. split; [exact Hshift|]. apply Hnew. vm_compute. reflexivity.
Defined.
